(** * Dynamic tool registration server (src/mcp/server.py)

    A shallow embedding of [register_tool_from_script], [register_tools]
    and the [__main__] driver of the tool server, together with the
    properties of the registration pipeline.

    The Python builtins and libraries the module calls ([exec], [open] +
    [json.load], FastMCP's input validation) are parameters of the
    development; the module's own control flow, its exception handlers,
    its use of the shared namespace and its diagnostic prints are
    transcribed statement by statement. *)

From Stdlib Require Import ZArith List String Ascii Bool Lia.
From stdpp Require Import base option list strings gmap fin_maps.

Local Open Scope string_scope.

(** ** Python strings: [startswith], [endswith], [replace] *)

Module PyStr.

Definition startswith (s p : string) : bool := String.prefix p s.

(** [s.endswith(p)]: the last [len(p)] characters of [s] are [p]. *)
Definition endswith (s p : string) : bool :=
  let n := String.length s in
  let m := String.length p in
  if (m <=? n)%nat then String.eqb (String.substring (n - m) m s) p else false.

(** [s.replace("", new)] puts [new] before every character and at the end. *)
Fixpoint intersperse (new s : string) : string :=
  match s with
  | EmptyString => new
  | String c s' => new ++ String c (intersperse new s')
  end.

(** Left-to-right scan replacing every non-overlapping occurrence of a
    non-empty [old]; [skip] counts the characters of the occurrence
    just matched that are still to be dropped. *)
Fixpoint replace_from (old new : string) (skip : nat) (s : string) : string :=
  match s with
  | EmptyString => EmptyString
  | String c s' =>
      match skip with
      | S k => replace_from old new k s'
      | O =>
          if String.prefix old s
          then new ++ replace_from old new (String.length old - 1) s'
          else String c (replace_from old new 0 s')
      end
  end.

(** [s.replace(old, new)]: all occurrences, not only the first. *)
Definition replace (s old new : string) : string :=
  match old with
  | EmptyString => intersperse new s
  | _ => replace_from old new 0 s
  end.

End PyStr.

(** ** Values *)

(** What [json.load] returns.  An object is the list of its members;
    [json.load] keeps the last of several members with one key, so the
    keys of a parsed object are distinct. *)
#[warnings="-register-all"]
Inductive json : Type :=
| JNull
| JBool (b : bool)
| JNum (z : Z)
| JStr (s : string)
| JArr (items : list json)
| JObj (members : list (string * json)).

(** The exception classes the module tells apart.  [SystemExit] and
    [KeyboardInterrupt] derive from [BaseException] only. *)
Inductive pyexn : Type :=
| FileNotFoundError
| JSONDecodeError
| AttributeError
| TypeError
| ValueError
| NameError
| SyntaxError
| RuntimeError
| SystemExit
| KeyboardInterrupt.

(** [isinstance(e, Exception)]. *)
Definition is_Exception (e : pyexn) : bool :=
  match e with
  | SystemExit | KeyboardInterrupt => false
  | _ => true
  end.

(** One parameter of a callable: its name and whether it is required. *)
Definition param : Type := string * bool.

(** Objects a namespace can hold. *)
Inductive pyval : Type :=
| VNone
| VBool (b : bool)
| VInt (z : Z)
| VStr (s : string)
| VFunc (fname : string) (params : list param) (body : string)
| VBuiltins.

(** [_mcp_tools_namespace]: the globals dictionary handed to [exec].
    Its keys are the identifiers bound by the executed sources. *)
Abbreviation namespace := (gmap string pyval).

(** How a call of [exec] ends; in both cases the dictionary it was given
    has been mutated in place into the one recorded here. *)
Inductive outcome : Type :=
| Returns (ns : namespace)
| Raises (e : pyexn) (ns : namespace).

Definition outcome_ns (o : outcome) : namespace :=
  match o with Returns ns => ns | Raises _ ns => ns end.

(** [exec] inserts [__builtins__] into a globals dictionary that lacks it. *)
Definition with_builtins (ns : namespace) : namespace :=
  match ns !! "__builtins__" with
  | Some _ => ns
  | None => <["__builtins__" := VBuiltins]> ns
  end.

(** [callable(v)]. *)
Definition callable (v : pyval) : bool :=
  match v with
  | VFunc _ _ _ => true
  | _ => false
  end.

(** An entry of FastMCP's tool table. *)
Record RegisteredTool : Type := mkTool {
  tool_name : string;
  tool_description : json;
  tool_callable : pyval;
  tool_signature : list param
}.

Abbreviation registry_t := (gmap string RegisteredTool).

(** Where a [print] goes. *)
Inductive channel : Type := Stdout | Stderr.

(** The diagnostic lines of the module, one constructor per [print]
    (and per [traceback.print_exc]), carrying the interpolated values.
    The last line joins the names of the tools; the names are kept as a
    set, since the order FastMCP lists them in (that of their first
    registration) is not recorded by the tool table as modelled. *)
Inductive diag : Type :=
| DRegistering (name : json)
| DExecError (name : json) (e : pyexn)
| DTraceback (e : pyexn)
| DNotFound (name : json)
| DSignature (name : json) (sig : list param)
| DRegistered (name : json)
| DRegisterError (name : json) (e : pyexn)
| DFileNotFound (path : string)
| DJsonError (path : string)
| DUnexpected (e : pyexn)
| DAllRegistered
| DRegisteredTools (names : gset string).

(** Calls into the interpreter and into FastMCP, in program order. *)
Inductive event : Type :=
| EvExec (src : string) (ns_in : namespace) (res : outcome)
| EvTool (t : RegisteredTool).

(** The process state the module reads and writes. *)
Record state : Type := mkState {
  st_namespace : namespace;
  st_registry : registry_t;
  st_output : list (channel * diag);
  st_events : list event
}.

Definition initial_state : state := mkState ∅ ∅ [] [].

(** ** Statements that run in a state and may raise *)

Inductive res (A : Type) : Type :=
| Ok (a : A)
| Raise (e : pyexn).
Arguments Ok {A} a.
Arguments Raise {A} e.

Definition M (A : Type) : Type := state -> res A * state.

Definition ret {A} (a : A) : M A := fun st => (Ok a, st).

Definition bind {A B} (m : M A) (k : A -> M B) : M B :=
  fun st =>
    match m st with
    | (Ok a, st') => k a st'
    | (Raise e, st') => (Raise e, st')
    end.

Definition raise {A} (e : pyexn) : M A := fun st => (Raise e, st).

(** [try: m  except ...: h]; [h e = None] when no clause matches [e]. *)
Definition try_except {A} (m : M A) (h : pyexn -> option (M A)) : M A :=
  fun st =>
    match m st with
    | (Raise e, st') =>
        match h e with
        | Some k => k st'
        | None => (Raise e, st')
        end
    | r => r
    end.

Notation "'let*' x ':=' m 'in' k" := (bind m (fun x => k))
  (at level 10, x name, m at level 100, k at level 200).
Notation "m '>>' k" := (bind m (fun _ => k))
  (at level 100, k at level 200, right associativity).

Definition print (c : channel) (d : diag) : M unit :=
  fun st => (Ok tt, mkState (st_namespace st) (st_registry st)
                            (st_output st ++ [(c, d)]) (st_events st)).

(** ** JSON values seen as Python objects *)

Fixpoint assoc (k : string) (members : list (string * json)) : option json :=
  match members with
  | [] => None
  | (k', v) :: rest => if String.eqb k k' then Some v else assoc k rest
  end.

(** The value under [k], or [default] when the key is missing. *)
Definition field (members : list (string * json)) (k : string) (default : json) : json :=
  match assoc k members with
  | Some v => v
  | None => default
  end.

(** [o.get(k, default)]; only a dict has the method. *)
Definition dict_get (o : json) (k : string) (default : json) : M json :=
  match o with
  | JObj members => ret (field members k default)
  | _ => raise AttributeError
  end.

(** Iterating a loaded JSON value with [for ... in]: a list yields its
    items, a dict its keys, a string its characters; nothing else is
    iterable. *)
Definition py_iter (v : json) : M (list json) :=
  match v with
  | JArr items => ret items
  | JObj members => ret (map (fun kv => JStr (fst kv)) members)
  | JStr s => ret (map (fun c => JStr (String c EmptyString)) (list_ascii_of_string s))
  | _ => raise TypeError
  end.

(** The receiver of [.startswith] / [.endswith] / [.replace] must be a
    string; no other JSON value has these methods. *)
Definition as_str (v : json) : M string :=
  match v with
  | JStr s => ret s
  | _ => raise AttributeError
  end.

(** Lines 37-40: the two fence-stripping statements. *)
Definition strip_fences (script_content : string) : string :=
  let script_content :=
    if PyStr.startswith script_content "```python"
    then PyStr.replace script_content "```python" ""
    else script_content in
  let script_content :=
    if PyStr.endswith script_content "```"
    then PyStr.replace script_content "```" ""
    else script_content in
  script_content.

(** [_mcp_tools_namespace.get(name, None)].  A list or a dict is not
    hashable; any other non-string key is hashable and is not an
    identifier of the namespace. *)
Definition namespace_get (name : json) : M pyval :=
  fun st =>
    match name with
    | JStr n =>
        match st_namespace st !! n with
        | Some v => (Ok v, st)
        | None => (Ok VNone, st)
        end
    | JArr _ | JObj _ => (Raise TypeError, st)
    | _ => (Ok VNone, st)
    end.

(** [inspect.signature(f)]: only a callable has one. *)
Definition inspect_signature (f : pyval) : M (list param) :=
  match f with
  | VFunc _ params _ => ret params
  | _ => raise TypeError
  end.

(** [mcp.get_tools()]: the tool table, a dictionary keyed by tool name. *)
Definition get_tools : M registry_t :=
  fun st => (Ok (st_registry st), st).

(** The process after [__main__]: either [mcp.run()] is serving the
    table, or an exception ended the interpreter before it. *)
Inductive process : Type :=
| Serving (st : state)
| Died (e : pyexn) (st : state).

Section Server.

(** The builtin [exec(source, globals)]. *)
Variable py_exec : string -> namespace -> outcome.
(** FastMCP's validation of a tool function, name and description:
    [Some e] when [mcp.tool] raises [e]. *)
Variable tool_check : pyval -> string -> json -> option pyexn.
(** [open(path)] followed by [json.load]. *)
Variable read_json : string -> pyexn + json.
(** [os.getenv("DEBUG")]. *)
Variable DEBUG : option string.

(** Truth value of [os.getenv("DEBUG")]: set and not empty. *)
Definition debug_on : bool :=
  match DEBUG with
  | Some (String _ _) => true
  | _ => false
  end.

(** [if os.getenv("DEBUG"): print(..., file=sys.stderr)]. *)
Definition debug (d : diag) : M unit :=
  if debug_on then print Stderr d else ret tt.

(** [exec(script_content, _mcp_tools_namespace)]: the shared dictionary
    is passed by reference and keeps whatever the source did to it,
    also when the source raises. *)
Definition exec (src : string) : M unit :=
  fun st =>
    let o := py_exec src (st_namespace st) in
    let st' := mkState (outcome_ns o) (st_registry st) (st_output st)
                       (st_events st ++ [EvExec src (st_namespace st) o]) in
    match o with
    | Returns _ => (Ok tt, st')
    | Raises e _ => (Raise e, st')
    end.

(** Modelled from the spec: FastMCP's tool table, which is not part of
    the repository; section 4.3 makes [register] an upsert keyed by the
    tool name (last write wins, nothing is deleted).  This is
    [mcp.tool(f, name=name, description=description)]. *)
Definition mcp_tool (f : pyval) (name description : json) : M unit :=
  match f, name with
  | VFunc _ params _, JStr n =>
      match tool_check f n description with
      | Some e => raise e
      | None =>
          fun st =>
            let t := mkTool n description f params in
            (Ok tt, mkState (st_namespace st) (<[n := t]> (st_registry st))
                            (st_output st) (st_events st ++ [EvTool t]))
      end
  | VFunc _ _ _, _ => raise ValueError
  | _, _ => raise TypeError
  end.

(** Lines 28-79. *)
Definition register_tool_from_script (script_info : json) : M unit :=
  let* name := dict_get script_info "name" (JStr "UnnamedTool") in
  let* description :=
    dict_get script_info "description" (JStr "No description provided.") in
  let* script_content := dict_get script_info "script_content" (JStr "") in
  let* script_content := as_str script_content in
  let script_content := strip_fences script_content in
  debug (DRegistering name) >>
  let* failed :=
    try_except (exec script_content >> ret false)
      (fun e =>
         if is_Exception e
         then Some (debug (DExecError name e) >> debug (DTraceback e) >> ret true)
         else None) in
  if (failed : bool) then ret tt
  else
    let* tool_function := namespace_get name in
    match tool_function with
    | VNone => debug (DNotFound name)
    | _ =>
        try_except
          (let* sig := inspect_signature tool_function in
           debug (DSignature name sig) >>
           mcp_tool tool_function name description >>
           debug (DRegistered name))
          (fun e =>
             if is_Exception e
             then Some (debug (DRegisterError name e) >> print Stderr (DTraceback e))
             else None)
    end.

(** [for script_info in script_info_list: await register_tool_from_script(script_info)].
    The awaited coroutine has no suspension point of its own, so each
    call runs to its end before the loop goes on. *)
Fixpoint for_each (items : list json) : M unit :=
  match items with
  | [] => ret tt
  | script_info :: rest => register_tool_from_script script_info >> for_each rest
  end.

(** [with open(path) as f: json.load(f)]. *)
Definition json_load (script_info_path : string) : M json :=
  match read_json script_info_path with
  | inl e => raise e
  | inr v => ret v
  end.

(** Lines 81-109. *)
Definition register_tools (script_info_path : string) : M unit :=
  try_except
    (let* script_info_list := json_load script_info_path in
     let* items := py_iter script_info_list in
     for_each items)
    (fun e =>
       match e with
       | FileNotFoundError => Some (debug (DFileNotFound script_info_path))
       | JSONDecodeError => Some (debug (DJsonError script_info_path))
       | _ => if is_Exception e then Some (debug (DUnexpected e)) else None
       end) >>
  debug DAllRegistered >>
  let* mcp_tools := get_tools in
  debug (DRegisteredTools (dom mcp_tools)).

(** Lines 111-114: register, then serve. *)
Definition main (script_info_path : string) (st : state) : process :=
  match register_tools script_info_path st with
  | (Ok _, st') => Serving st'
  | (Raise e, st') => Died e st'
  end.

End Server.

(** ** A fragment of Python for running examples

    [PyLite.exec] instantiates the builtin [exec] on sources made of
    one-line top-level statements:
      [def NAME(PARAMS): BODY], [NAME = None | True | False | INT | NAME]
    and [raise NAME],
    where a parameter is [NAME] or [NAME=LITERAL] (no required one after
    an optional one, no name twice), a body is [pass] or [return] with
    nothing, an atom or a sum of two atoms, an integer has no leading
    zero, no [NAME] is a keyword, a name read on the right of [=] is not
    the name of a builtin, and a raised name is one of the builtin
    exception classes of [builtin_exception] or not a builtin at all.
    As in Python the whole source is compiled first (a syntax error runs
    nothing), [__builtins__] is inserted into the dictionary before
    anything else, and the bindings made before a raising statement
    stay.  A source outside the fragment is reported as a syntax error,
    which is not what Python does with it. *)

Module PyLite.

Definition nl : string := String (ascii_of_nat 10) EmptyString.

Fixpoint split_on (sep : ascii) (s : string) : list string :=
  match s with
  | EmptyString => [EmptyString]
  | String c s' =>
      if Ascii.eqb c sep then EmptyString :: split_on sep s'
      else match split_on sep s' with
           | h :: t => String c h :: t
           | [] => [String c EmptyString]
           end
  end.

Fixpoint ltrim (s : string) : string :=
  match s with
  | String " " s' => ltrim s'
  | _ => s
  end.

Definition trim (s : string) : string :=
  String.rev (ltrim (String.rev (ltrim s))).

Definition is_digit (c : ascii) : bool :=
  let n := nat_of_ascii c in (48 <=? n)%nat && (n <=? 57)%nat.

Definition is_ident_char (c : ascii) : bool :=
  let n := nat_of_ascii c in
  is_digit c || ((65 <=? n)%nat && (n <=? 90)%nat)
  || ((97 <=? n)%nat && (n <=? 122)%nat) || (n =? 95)%nat.

Definition one_of (names : list string) (s : string) : bool :=
  existsb (String.eqb s) names.

(** The reserved words of Python 3. *)
Definition keywords : list string :=
  ["False"; "None"; "True"; "and"; "as"; "assert"; "async"; "await"; "break";
   "class"; "continue"; "def"; "del"; "elif"; "else"; "except"; "finally";
   "for"; "from"; "global"; "if"; "import"; "in"; "is"; "lambda"; "nonlocal";
   "not"; "or"; "pass"; "raise"; "return"; "try"; "while"; "with"; "yield"].

(** The names bound in the module [builtins]. *)
Definition builtin_names : list string :=
  ["ArithmeticError"; "AssertionError"; "AttributeError"; "BaseException";
   "BaseExceptionGroup"; "BlockingIOError"; "BrokenPipeError"; "BufferError";
   "BytesWarning"; "ChildProcessError"; "ConnectionAbortedError";
   "ConnectionError"; "ConnectionRefusedError"; "ConnectionResetError";
   "DeprecationWarning"; "EOFError"; "Ellipsis"; "EncodingWarning";
   "EnvironmentError"; "Exception"; "ExceptionGroup"; "FileExistsError";
   "FileNotFoundError"; "FloatingPointError"; "FutureWarning"; "GeneratorExit";
   "IOError"; "ImportError"; "ImportWarning"; "IndentationError"; "IndexError";
   "InterruptedError"; "IsADirectoryError"; "KeyError"; "KeyboardInterrupt";
   "LookupError"; "MemoryError"; "ModuleNotFoundError"; "NameError";
   "NotADirectoryError"; "NotImplemented"; "NotImplementedError"; "OSError";
   "OverflowError"; "PendingDeprecationWarning"; "PermissionError";
   "ProcessLookupError"; "PythonFinalizationError"; "RecursionError";
   "ReferenceError"; "ResourceWarning"; "RuntimeError"; "RuntimeWarning";
   "StopAsyncIteration"; "StopIteration"; "SyntaxError"; "SyntaxWarning";
   "SystemError"; "SystemExit"; "TabError"; "TimeoutError"; "TypeError";
   "UnboundLocalError"; "UnicodeDecodeError"; "UnicodeEncodeError";
   "UnicodeError"; "UnicodeTranslateError"; "UnicodeWarning"; "UserWarning";
   "ValueError"; "Warning"; "WindowsError"; "ZeroDivisionError";
   "__build_class__"; "__debug__"; "__doc__"; "__import__"; "__loader__";
   "__name__"; "__package__"; "__spec__";
   "abs"; "aiter"; "all"; "anext"; "any"; "ascii"; "bin"; "bool"; "breakpoint";
   "bytearray"; "bytes"; "callable"; "chr"; "classmethod"; "compile";
   "complex"; "copyright"; "credits"; "delattr"; "dict"; "dir"; "divmod";
   "enumerate"; "eval"; "exec"; "exit"; "filter"; "float"; "format";
   "frozenset"; "getattr"; "globals"; "hasattr"; "hash"; "help"; "hex"; "id";
   "input"; "int"; "isinstance"; "issubclass"; "iter"; "len"; "license";
   "list"; "locals"; "map"; "max"; "memoryview"; "min"; "next"; "object";
   "oct"; "open"; "ord"; "pow"; "print"; "property"; "quit"; "range"; "repr";
   "reversed"; "round"; "set"; "setattr"; "slice"; "sorted"; "staticmethod";
   "str"; "sum"; "super"; "tuple"; "type"; "vars"; "zip"].

Definition is_ident (s : string) : bool :=
  match s with
  | EmptyString => false
  | String c _ =>
      negb (is_digit c) && forallb is_ident_char (list_ascii_of_string s)
      && negb (one_of keywords s)
  end.

(** A decimal integer literal: digits, with a leading zero only when
    all of them are zeros. *)
Definition is_number (s : string) : bool :=
  match s with
  | EmptyString => false
  | String c _ =>
      forallb is_digit (list_ascii_of_string s)
      && (negb (Ascii.eqb c "0")
          || forallb (Ascii.eqb "0") (list_ascii_of_string s))
  end.

Definition is_literal (s : string) : bool :=
  is_number s || one_of ["None"; "True"; "False"] s.

Definition is_atom (s : string) : bool := is_number s || is_ident s.

(** The bodies of the fragment: [pass], [return], [return ATOM],
    [return ATOM+ATOM]. *)
Definition is_body (s : string) : bool :=
  if String.eqb s "pass" then true
  else if String.eqb s "return" then true
  else if String.prefix "return " s then
    let e := String.substring 7 (String.length s - 7) s in
    match String.index 0 "+" e with
    | None => is_literal (trim e)
              || is_ident (trim e)
    | Some i =>
        let l := String.substring 0 i e in
        let r := String.substring (S i) (String.length e - S i) e in
        is_atom (trim l)
        && is_atom (trim r)
    end
  else false.

Definition number_of (s : string) : Z :=
  fold_left (fun acc c => (10 * acc + Z.of_nat (nat_of_ascii c - 48))%Z)
            (list_ascii_of_string s) 0%Z.

Definition drop_chars (n : nat) (s : string) : string :=
  String.substring n (String.length s - n) s.

Inductive stmt : Type :=
| SDef (name : string) (params : list param) (body : string)
| SConst (name : string) (v : pyval)
| SName (name src : string)
| SRaise (name : string).

(** [a] is required, [a=1] is optional. *)
Definition parse_param (p : string) : option param :=
  match String.index 0 "=" p with
  | Some i =>
      let n := trim (String.substring 0 i p) in
      let v := trim (drop_chars (S i) p) in
      if is_ident n && is_literal v then Some (n, false) else None
  | None =>
      let n := trim p in
      if is_ident n then Some (n, true) else None
  end.

(** No required parameter after an optional one. *)
Fixpoint defaults_last (ps : list param) : bool :=
  match ps with
  | [] => true
  | (_, true) :: rest => defaults_last rest
  | (_, false) :: rest => forallb (fun p => negb (snd p)) rest
  end.

Fixpoint distinct (names : list string) : bool :=
  match names with
  | [] => true
  | n :: rest => negb (one_of rest n) && distinct rest
  end.

Fixpoint parse_params (ps : list string) : option (list param) :=
  match ps with
  | [] => Some []
  | p :: rest =>
      match parse_param p, parse_params rest with
      | Some x, Some xs => Some (x :: xs)
      | _, _ => None
      end
  end.

Definition parse_def (rest : string) : option stmt :=
  match String.index 0 "(" rest with
  | None => None
  | Some i =>
      let name := String.substring 0 i rest in
      let after := drop_chars (S i) rest in
      match String.index 0 ")" after with
      | None => None
      | Some j =>
          let ptxt := String.substring 0 j after in
          let tail := drop_chars (S j) after in
          let body := trim (drop_chars 1 tail) in
          if is_ident name && String.prefix ":" tail && is_body body
          then
            match (if String.eqb (trim ptxt) EmptyString then Some []
                   else parse_params (split_on "," ptxt)) with
            | Some ps =>
                if defaults_last ps && distinct (map fst ps)
                then Some (SDef name ps body) else None
            | None => None
            end
          else None
      end
  end.

Definition parse_assign (line : string) : option stmt :=
  match String.index 0 " = " line with
  | None => None
  | Some i =>
      let lhs := String.substring 0 i line in
      let rhs := trim (drop_chars (i + 3) line) in
      if negb (is_ident lhs) then None
      else if String.eqb rhs "None" then Some (SConst lhs VNone)
      else if String.eqb rhs "True" then Some (SConst lhs (VBool true))
      else if String.eqb rhs "False" then Some (SConst lhs (VBool false))
      else if is_number rhs then Some (SConst lhs (VInt (number_of rhs)))
      else if is_ident rhs && negb (one_of builtin_names rhs) then Some (SName lhs rhs)
      else None
  end.

(** The builtin exception classes that have a constructor in [pyexn],
    by name. *)
Definition builtin_exception (n : string) : option pyexn :=
  if String.eqb n "SystemExit" then Some SystemExit
  else if String.eqb n "KeyboardInterrupt" then Some KeyboardInterrupt
  else if String.eqb n "ValueError" then Some ValueError
  else if String.eqb n "TypeError" then Some TypeError
  else if String.eqb n "RuntimeError" then Some RuntimeError
  else if String.eqb n "NameError" then Some NameError
  else if String.eqb n "AttributeError" then Some AttributeError
  else if String.eqb n "SyntaxError" then Some SyntaxError
  else if String.eqb n "FileNotFoundError" then Some FileNotFoundError
  else None.

(** A name the fragment can raise: a modelled builtin class, or a name
    that is no builtin (it is then unbound, or bound to a value that is
    not an exception). *)
Definition raisable (n : string) : bool :=
  is_ident n &&
  (match builtin_exception n with Some _ => true | None => false end
   || negb (one_of builtin_names n)).

(** [Some None] for a blank line, [None] for a line outside the fragment. *)
Definition parse_line (line : string) : option (option stmt) :=
  if String.eqb (ltrim line) EmptyString then Some None
  else if String.prefix "def " line then
    match parse_def (drop_chars 4 line) with Some s => Some (Some s) | None => None end
  else if String.prefix "raise " line then
    let n := trim (drop_chars 6 line) in
    if raisable n then Some (Some (SRaise n)) else None
  else
    match parse_assign line with Some s => Some (Some s) | None => None end.

Fixpoint parse_lines (lines : list string) : option (list stmt) :=
  match lines with
  | [] => Some []
  | l :: rest =>
      match parse_line l, parse_lines rest with
      | Some (Some s), Some ss => Some (s :: ss)
      | Some None, Some ss => Some ss
      | _, _ => None
      end
  end.

Definition compile (src : string) : option (list stmt) :=
  parse_lines (split_on (ascii_of_nat 10) src).

Fixpoint run_stmts (ss : list stmt) (ns : namespace) : outcome :=
  match ss with
  | [] => Returns ns
  | SDef name ps body :: rest => run_stmts rest (<[name := VFunc name ps body]> ns)
  | SConst name v :: rest => run_stmts rest (<[name := v]> ns)
  | SName name src :: rest =>
      match ns !! src with
      | Some v => run_stmts rest (<[name := v]> ns)
      | None => Raises NameError ns
      end
  | SRaise n :: _ =>
      match ns !! n with
      | Some _ => Raises TypeError ns
      | None =>
          match builtin_exception n with
          | Some e => Raises e ns
          | None => Raises NameError ns
          end
      end
  end.

Definition exec (src : string) (ns : namespace) : outcome :=
  let ns := with_builtins ns in
  match compile src with
  | Some ss => run_stmts ss ns
  | None => Raises SyntaxError ns
  end.

(** FastMCP accepting every function it is given. *)
Definition accept_all (f : pyval) (name : string) (description : json) : option pyexn :=
  None.

(** A file system holding one registry file. *)
Definition one_file (path : string) (content : json) (p : string) : pyexn + json :=
  if String.eqb p path then inr content else inl FileNotFoundError.

(** A well-formed descriptor. *)
Definition descriptor (name description script_content : string) : json :=
  JObj [("name", JStr name); ("description", JStr description);
        ("script_content", JStr script_content)].

End PyLite.

(** ** Observations on a run *)

(** The calls of [exec] among the events: source, dictionary on entry,
    result. *)
Definition exec_calls (evs : list event) : list (string * namespace * outcome) :=
  omap (fun ev => match ev with
                  | EvExec src ns_in o => Some (src, ns_in, o)
                  | EvTool _ => None
                  end) evs.

(** The successful calls of [mcp.tool] among the events. *)
Definition tool_calls (evs : list event) : list RegisteredTool :=
  omap (fun ev => match ev with
                  | EvTool t => Some t
                  | EvExec _ _ _ => None
                  end) evs.

(** The events a run from [st] to [st'] has added. *)
Definition events_since (st st' : state) : list event :=
  drop (length (st_events st)) (st_events st').

(** The tools a statement registers when run from [st]. *)
Definition tools_registered_by (m : M unit) (st : state) : list RegisteredTool :=
  tool_calls (events_since st (snd (m st))).

Definition upsert (reg : registry_t) (t : RegisteredTool) : registry_t :=
  <[tool_name t := t]> reg.

(** The source a list item hands to [exec], when it gets that far. *)
Definition script_of (item : json) : option string :=
  match item with
  | JObj members =>
      match field members "script_content" (JStr "") with
      | JStr s => Some (strip_fences s)
      | _ => None
      end
  | _ => None
  end.

(** The three defaults of lines 33-35 as object members. *)
Definition default_fields : list (string * json) :=
  [("name", JStr "UnnamedTool");
   ("description", JStr "No description provided.");
   ("script_content", JStr "")].

Definition call_src (c : string * namespace * outcome) : string := fst (fst c).
Definition call_in (c : string * namespace * outcome) : namespace := snd (fst c).
Definition call_out (c : string * namespace * outcome) : outcome := snd c.

(** A sequence of [exec] calls that starts on dictionary [ns], hands the
    dictionary left by each call to the next one, and ends with [ns_end]. *)
Fixpoint chained (py_exec : string -> namespace -> outcome) (ns : namespace)
         (calls : list (string * namespace * outcome)) (ns_end : namespace) : Prop :=
  match calls with
  | [] => ns_end = ns
  | c :: rest =>
      call_in c = ns /\ call_out c = py_exec (call_src c) ns /\
      chained py_exec (outcome_ns (call_out c)) rest ns_end
  end.

(** The dictionary, the table and the events of a state (all of it but
    the printed lines). *)
Definition core (st : state) : namespace * registry_t * list event :=
  (st_namespace st, st_registry st, st_events st).

(** What the [for] statement of [register_tools] iterates over, or the
    exception raised before its first iteration. *)
Definition loaded_items (read_json : string -> pyexn + json) (path : string)
  : pyexn + list json :=
  match read_json path with
  | inl e => inl e
  | inr (JArr items) => inr items
  | inr (JObj members) => inr (map (fun kv => JStr (fst kv)) members)
  | inr (JStr s) => inr (map (fun c => JStr (String c EmptyString)) (list_ascii_of_string s))
  | inr _ => inl TypeError
  end.

(** The registry file is missing, is not JSON, or holds a JSON value
    that is not a list. *)
Definition unloadable (r : pyexn + json) : Prop :=
  r = inl FileNotFoundError \/ r = inl JSONDecodeError \/
  exists v, r = inr v /\ forall items, v <> JArr items.

(** ** Example registries, run on the Python fragment *)

Module Demo.

Import PyLite.

Definition registry_path : string := "src/mcp/local/mcp_tools_registry.json".

(** [register_tools] on a registry file holding [content]. *)
Definition run (DEBUG : option string) (content : json) : M unit :=
  register_tools PyLite.exec accept_all (one_file registry_path content) DEBUG
                 registry_path.

(** [__main__] on the same. *)
Definition start (DEBUG : option string) (content : json) : process :=
  main PyLite.exec accept_all (one_file registry_path content) DEBUG
       registry_path initial_state.

Definition add_tool : json :=
  descriptor "add" "Add two numbers." "def add(a, b): return a+b".

(** The first source stops the interpreter; a sound tool follows. *)
Definition exits_then_add : json :=
  JArr [descriptor "boom" "Leaves." "raise SystemExit"; add_tool].

(** The first source raises an ordinary error; a sound tool follows. *)
Definition fails_then_add : list json :=
  [descriptor "bad" "Fails." "raise ValueError"; add_tool].

(** The first source uses a symbol that only the second one defines. *)
Definition forward_reference : json :=
  JArr [descriptor "g" "Alias of helper." "g = helper";
        descriptor "helper" "A helper." "def helper(): return 1"].

(** The source binds the declared name to an integer. *)
Definition not_callable : json :=
  JArr [descriptor "x" "Not a function." "x = 5"].

(** A sound descriptor, then one of the same name whose source rebinds
    the name to an integer. *)
Definition stale_entry : json :=
  JArr [descriptor "x" "first" "def x(): return 1";
        descriptor "x" "second" "x = 5"].

(** The source binds the declared name to [None]. *)
Definition bound_to_none : list (string * json) :=
  [("name", JStr "t"); ("description", JStr "Nothing.");
   ("script_content", JStr "t = None")].

(** The second object has no source and takes the name of the first. *)
Definition no_source_second : list (string * json) :=
  [("name", JStr "f"); ("description", JStr "second")].

Definition rebinding : json :=
  JArr [descriptor "f" "first" "def f(): return 1"; JObj no_source_second].

(** An object with a name only. *)
Definition name_only : list (string * json) :=
  [("name", JStr "ghost")].

(** A fenced source whose text contains the opening marker again. *)
Definition fenced_with_inner_marker : string :=
  "```python" ++ nl ++ "DOC = '```python'" ++ nl ++ "```".

(** The same text with only the leading and the trailing marker removed. *)
Definition inner_marker_kept : string :=
  nl ++ "DOC = '```python'" ++ nl.

(** The state after the first source of [fails_then_add] has raised. *)
Definition after_bad : state :=
  snd (register_tool_from_script PyLite.exec accept_all None
         (descriptor "bad" "Fails." "raise ValueError") initial_state).

Definition bad_members : list (string * json) :=
  [("name", JStr "bad"); ("description", JStr "Fails.");
   ("script_content", JStr "raise ValueError")].

Definition int_members : list (string * json) :=
  [("name", JStr "x"); ("description", JStr "Not a function.");
   ("script_content", JStr "x = 5")].

(** The two [exec] calls of [forward_reference]. *)
Definition forward_items : list json :=
  [descriptor "g" "Alias of helper." "g = helper";
   descriptor "helper" "A helper." "def helper(): return 1"].

Definition call_g : string * namespace * outcome :=
  ("g = helper", ∅, Raises NameError (with_builtins ∅)).

Definition call_helper : string * namespace * outcome :=
  ("def helper(): return 1", with_builtins ∅,
   Returns (<["helper" := VFunc "helper" [] "return 1"]> (with_builtins ∅))).

End Demo.

(** Printed lines that all go to [sys.stderr] and, when the debug flag
    is off, are all tracebacks. *)
Definition side_channel_only (DEBUG : option string) (lines : list (channel * diag)) : Prop :=
  Forall (fun l => fst l = Stderr) lines /\
  (debug_on DEBUG = false -> Forall (fun l => exists e, snd l = DTraceback e) lines).

(** ** Further observations *)

(** The name a list item declares, when it is a string. *)
Definition declared_name (item : json) : option string :=
  match item with
  | JObj members =>
      match field members "name" (JStr "UnnamedTool") with
      | JStr n => Some n
      | _ => None
      end
  | _ => None
  end.

(** Python lists and dicts cannot be dictionary keys. *)
Definition unhashable (v : json) : bool :=
  match v with
  | JArr _ | JObj _ => true
  | _ => false
  end.

(** Table entry [t] is what list item [item] declares: its name and its
    description, with a function whose parameters are the signature. *)
Definition describes (item : json) (t : RegisteredTool) : Prop :=
  exists members fname body,
    item = JObj members /\
    field members "name" (JStr "UnnamedTool") = JStr (tool_name t) /\
    tool_description t = field members "description" (JStr "No description provided.") /\
    tool_callable t = VFunc fname (tool_signature t) body.

(** No character of [s] is a backtick. *)
Definition backtick_free (s : string) : bool :=
  forallb (fun c => negb (Ascii.eqb c "`")) (list_ascii_of_string s).

(** A state with its printed lines forgotten. *)
Definition erase_output (st : state) : state :=
  mkState (st_namespace st) (st_registry st) [] (st_events st).

(** Two statements that end alike (same result, same dictionary, table
    and events) whenever they start from states that differ at most in
    their printed lines. *)
Definition core_sim {A} (m1 m2 : M A) : Prop :=
  forall st1 st2, core st1 = core st2 ->
    fst (m1 st1) = fst (m2 st2) /\ core (snd (m1 st1)) = core (snd (m2 st2)).

(** ** More example data *)

Module Cases.

Import PyLite Demo.

Definition add_members : list (string * json) :=
  [("name", JStr "add"); ("description", JStr "Add two numbers.");
   ("script_content", JStr "def add(a, b): return a+b")].

(** The table entry [add_members] gives rise to. *)
Definition add_entry : RegisteredTool :=
  mkTool "add" (JStr "Add two numbers.")
         (VFunc "add" [("a", true); ("b", true)] "return a+b")
         [("a", true); ("b", true)].

Definition boom_members : list (string * json) :=
  [("name", JStr "boom"); ("description", JStr "Leaves.");
   ("script_content", JStr "raise SystemExit")].

(** A number sits between sound descriptors. *)
Definition number_inside : list json :=
  [add_tool] ++ JNum 5 :: forward_items.

(** A source that stops the interpreter sits between sound descriptors. *)
Definition exit_inside : list json :=
  [add_tool] ++ JObj boom_members :: forward_items.

(** An item whose declared name is a list. *)
Definition list_name_members : list (string * json) :=
  [("name", JArr [JStr "z"]); ("script_content", JStr "z = 1")].

Definition list_name_inside : list json :=
  [add_tool] ++ JObj list_name_members :: forward_items.

(** The state after [add_tool] alone has been processed. *)
Definition after_add : state :=
  snd (for_each PyLite.exec accept_all None [add_tool] initial_state).

(** The initial state with a line already printed. *)
Definition already_printed : state :=
  mkState ∅ ∅ [(Stderr, DAllRegistered)] [].

(** FastMCP rejecting every function. *)
Definition reject_all (f : pyval) (name : string) (description : json) : option pyexn :=
  Some ValueError.

(** One registry split in two files, and the whole of it in a third. *)
Definition three_files (p : string) : pyexn + json :=
  if String.eqb p "a.json" then inr (JArr [add_tool])
  else if String.eqb p "b.json" then inr (JArr forward_items)
  else if String.eqb p "all.json" then inr (JArr ([add_tool] ++ forward_items))
  else inl FileNotFoundError.

End Cases.

(** What the gated prints of a statement add to the output. *)
Definition debug_lines (DEBUG : option string) (ds : list diag) : list (channel * diag) :=
  if debug_on DEBUG then map (pair Stderr) ds else [].

(** ** Properties of one descriptor and of the loop *)

Section Registration.

Local Open Scope list_scope.

Variable py_exec : string -> namespace -> outcome.
Variable tool_check : pyval -> string -> json -> option pyexn.
Variable DEBUG : option string.

Local Abbreviation rtfs := (register_tool_from_script py_exec tool_check DEBUG).
Local Abbreviation loop := (for_each py_exec tool_check DEBUG).

Ltac unfold_py :=
  unfold register_tool_from_script, mcp_tool, inspect_signature, namespace_get,
    exec, debug, print, dict_get, as_str, try_except, bind, ret, raise.

Ltac tidy := cbn; rewrite <- ?app_assoc, ?app_nil_r; cbn.

Lemma loop_cons (d : json) (rest : list json) (st : state) :
  loop (d :: rest) st =
  match rtfs d st with
  | (Ok _, st') => loop rest st'
  | (Raise e, st') => (Raise e, st')
  end.
Proof. reflexivity. Qed.

Lemma loop_app (pre post : list json) (st : state) :
  loop (pre ++ post) st =
  match loop pre st with
  | (Ok _, st') => loop post st'
  | (Raise e, st') => (Raise e, st')
  end.
Proof.
  revert st. induction pre as [|d pre IH]; intros st.
  - reflexivity.
  - rewrite <- app_comm_cons, !loop_cons.
    destruct (rtfs d st) as [[[]|e] st1]; [apply IH | reflexivity].
Qed.

Lemma loop_step (d : json) (rest : list json) (st st' : state) :
  rtfs d st = (Ok tt, st') -> loop (d :: rest) st = loop rest st'.
Proof. intros E. rewrite loop_cons, E. reflexivity. Qed.

Lemma exec_calls_app (a b : list event) :
  exec_calls (a ++ b) = exec_calls a ++ exec_calls b.
Proof. unfold exec_calls. apply omap_app. Qed.

Lemma tool_calls_app (a b : list event) :
  tool_calls (a ++ b) = tool_calls a ++ tool_calls b.
Proof. unfold tool_calls. apply omap_app. Qed.

Lemma chained_app (ns mid ns_end : namespace)
      (l1 l2 : list (string * namespace * outcome)) :
  chained py_exec ns l1 mid -> chained py_exec mid l2 ns_end ->
  chained py_exec ns (l1 ++ l2) ns_end.
Proof.
  revert ns. induction l1 as [|c l1 IH]; intros ns H1 H2; cbn in *.
  - subst mid. exact H2.
  - destruct H1 as (Hi & Ho & Hr). repeat split; auto.
Qed.

(** Everything one call of [register_tool_from_script] does to the
    events, the table and the dictionary, for any list item. *)
Lemma rtfs_effect (d : json) (st : state) :
  exists new,
    st_events (snd (rtfs d st)) = st_events st ++ new /\
    st_registry (snd (rtfs d st)) = foldl upsert (st_registry st) (tool_calls new) /\
    match script_of d with
    | Some s =>
        exec_calls new = [(s, st_namespace st, py_exec s (st_namespace st))] /\
        st_namespace (snd (rtfs d st)) = outcome_ns (py_exec s (st_namespace st))
    | None =>
        exec_calls new = [] /\
        st_namespace (snd (rtfs d st)) = st_namespace st /\
        fst (rtfs d st) = Raise AttributeError
    end.
Proof.
  destruct st as [ns reg out evs].
  unfold script_of.
  destruct d as [| | | |items|members];
    try (exists []; cbn; rewrite app_nil_r; auto; fail).
  unfold_py.
  destruct (field members "script_content" (JStr "")) as [| | |src| |];
    try (exists []; cbn; rewrite app_nil_r; auto; fail).
  generalize (strip_fences src); intros s.
  destruct (debug_on DEBUG); cbn;
    repeat (case_match; cbn; subst; try discriminate);
    simplify_eq;
    (eexists; split; [cbn; rewrite <- ?app_assoc; reflexivity|]);
    cbn; auto.
Qed.

(** The same for the whole loop: the events only grow, the table is
    the old one with the registered tools upserted in order, the
    [exec] calls are chained on the one dictionary, and they are the
    calls for the first [k] items, one per item and in the order of
    the list ([k] is the whole list when the loop ends normally). *)
Lemma loop_effect (items : list json) (st : state) :
  exists new k,
    st_events (snd (loop items st)) = st_events st ++ new /\
    st_registry (snd (loop items st)) = foldl upsert (st_registry st) (tool_calls new) /\
    chained py_exec (st_namespace st) (exec_calls new) (st_namespace (snd (loop items st))) /\
    map (fun c => Some (call_src c)) (exec_calls new) = map script_of (take k items) /\
    (fst (loop items st) = Ok tt -> k = length items).
Proof.
  revert st. induction items as [|d rest IH]; intros st.
  - exists [], 0. cbn. rewrite app_nil_r. repeat split; auto.
  - rewrite loop_cons.
    destruct (rtfs_effect d st) as (new1 & Hev & Hreg & Hsc).
    destruct (rtfs d st) as [r st1] eqn:E; cbn in Hev, Hreg, Hsc.
    destruct r as [[]|e].
    + destruct (IH st1) as (new2 & k2 & Hev2 & Hreg2 & Hch2 & Hpre2 & Hok2).
      exists (new1 ++ new2), (S k2).
      rewrite Hev2, Hreg2, Hev, Hreg, tool_calls_app, exec_calls_app, foldl_app, app_assoc.
      split; [reflexivity|]. split; [reflexivity|].
      destruct (script_of d) as [s|] eqn:Es.
      * destruct Hsc as [Hc Hns]. rewrite Hc. cbn.
        rewrite Hns in Hch2. rewrite Es, Hpre2. repeat split; auto.
      * destruct Hsc as (_ & _ & Hf). discriminate Hf.
    + destruct (script_of d) as [s|] eqn:Es.
      * exists new1, 1. destruct Hsc as [Hc Hns]. rewrite Hc. cbn.
        rewrite Es, take_0. repeat split; auto. discriminate.
      * exists new1, 0. destruct Hsc as (Hc & Hns & _). rewrite Hc. cbn.
        repeat split; auto. discriminate.
Qed.

(** *** The tool table under a sequence of upserts *)

Lemma foldl_upsert_other (reg : registry_t) (ts : list RegisteredTool) (k : string) :
  Forall (fun t => tool_name t <> k) ts ->
  foldl upsert reg ts !! k = reg !! k.
Proof.
  revert reg. induction ts as [|t ts IH]; intros reg H; cbn.
  - reflexivity.
  - inversion H as [|? ? Ht Hts]; subst. rewrite IH by assumption.
    unfold upsert. apply lookup_insert_ne. assumption.
Qed.

Lemma foldl_upsert_written (reg reg' : registry_t) (ts : list RegisteredTool) (k : string) :
  Exists (fun t => tool_name t = k) ts ->
  foldl upsert reg ts !! k = foldl upsert reg' ts !! k.
Proof.
  revert reg reg'. induction ts as [|t ts IH]; intros reg reg' H; cbn.
  - inversion H.
  - destruct (decide (Exists (fun t => tool_name t = k) ts)) as [Hin|Hout].
    + apply IH. assumption.
    + apply not_Exists_Forall in Hout; [|intros x; apply _].
      rewrite !foldl_upsert_other by exact Hout.
      inversion H as [? ? Ht|? ? Hts]; subst.
      * unfold upsert. rewrite !lookup_insert_eq. reflexivity.
      * exfalso. apply Forall_Exists_neg in Hout. apply Hout.
        eapply Exists_impl; [exact Hts|]. cbn. auto.
Qed.

(** Replaying a sequence of upserts changes nothing. *)
Lemma foldl_upsert_idem (reg : registry_t) (ts : list RegisteredTool) :
  foldl upsert (foldl upsert reg ts) ts = foldl upsert reg ts.
Proof.
  apply map_eq. intros k.
  destruct (decide (Exists (fun t => tool_name t = k) ts)) as [Hin|Hout].
  - apply foldl_upsert_written. assumption.
  - apply not_Exists_Forall in Hout; [|intros x; apply _].
    apply foldl_upsert_other.
    eapply Forall_impl; [exact Hout|]. cbn. auto.
Qed.

(** Upserts delete nothing. *)
Lemma foldl_upsert_keeps (reg : registry_t) (ts : list RegisteredTool) (k : string) :
  is_Some (reg !! k) -> is_Some (foldl upsert reg ts !! k).
Proof.
  revert reg. induction ts as [|t ts IH]; intros reg H; cbn.
  - assumption.
  - apply IH. unfold upsert.
    destruct (decide (tool_name t = k)) as [->|Hne].
    + rewrite lookup_insert_eq. eauto.
    + rewrite lookup_insert_ne by assumption. assumption.
Qed.

Lemma events_since_eq (st st' : state) (new : list event) :
  st_events st' = st_events st ++ new -> events_since st st' = new.
Proof. intros E. unfold events_since. rewrite E. apply drop_app_length. Qed.

Lemma chained_spec (ns ns_end : namespace) (calls : list (string * namespace * outcome)) :
  chained py_exec ns calls ns_end ->
  (forall c, head calls = Some c -> call_in c = ns) /\
  (forall i c1 c2, calls !! i = Some c1 -> calls !! S i = Some c2 ->
                   call_in c2 = outcome_ns (call_out c1)) /\
  (forall c, c ∈ calls -> call_out c = py_exec (call_src c) (call_in c)) /\
  (forall c, last calls = Some c -> ns_end = outcome_ns (call_out c)).
Proof.
  revert ns. induction calls as [|c calls IH]; intros ns H; cbn in H.
  - repeat split; intros; try discriminate;
      try match goal with
          | Hin : _ ∈ [] |- _ => apply elem_of_nil in Hin; contradiction
          | Hl : [] !! _ = Some _ |- _ => rewrite lookup_nil in Hl; discriminate
          end.
  - destruct H as (Hi & Ho & Hr).
    destruct (IH _ Hr) as (Hh & Hadj & Hall & Hlast).
    repeat split.
    + intros c' [= <-]. exact Hi.
    + intros [|i] c1 c2 H1 H2; cbn in H1, H2.
      * injection H1 as <-. apply Hh. destruct calls; [discriminate|]. exact H2.
      * eapply Hadj; eassumption.
    + intros c' [->|Hin]%elem_of_cons; [|auto]. rewrite Hi. exact Ho.
    + intros c' Hl. destruct calls as [|c2 calls].
      * cbn in Hl. injection Hl as <-. cbn in Hr. exact Hr.
      * apply Hlast. exact Hl.
Qed.

(** *** What is printed, and where *)

Lemma side_channel_nil : side_channel_only DEBUG [].
Proof. split; intros; constructor. Qed.

Lemma side_channel_app (a b : list (channel * diag)) :
  side_channel_only DEBUG a -> side_channel_only DEBUG b ->
  side_channel_only DEBUG (a ++ b).
Proof.
  intros [Ha1 Ha2] [Hb1 Hb2]. split.
  - apply Forall_app; auto.
  - intros H. apply Forall_app; auto.
Qed.

Lemma side_channel_traceback (e : pyexn) :
  side_channel_only DEBUG [(Stderr, DTraceback e)].
Proof. split; intros; repeat constructor. cbn. eauto. Qed.

Lemma side_channel_debug (d : diag) :
  debug_on DEBUG = true -> side_channel_only DEBUG [(Stderr, d)].
Proof.
  intros H. split; [repeat constructor|]. rewrite H. discriminate.
Qed.

(** Exhibits the printed lines and checks them one by one. *)
Ltac printed :=
  eexists; split;
  [ cbn; rewrite <- ?app_assoc; first [reflexivity | symmetry; apply app_nil_r]
  | repeat first
      [ assumption
      | apply side_channel_nil
      | apply side_channel_traceback
      | apply side_channel_debug; assumption
      | apply side_channel_app
      | match goal with
        | |- side_channel_only _ (?a :: ?b :: ?r) =>
            change (a :: b :: r) with ([a] ++ b :: r)
        end ] ].

(** Every line [register_tool_from_script] prints goes to
    [sys.stderr]; with the debug flag off the only lines are the
    tracebacks of the second handler. *)
Lemma rtfs_output (d : json) (st : state) :
  exists lines,
    st_output (snd (rtfs d st)) = st_output st ++ lines /\
    side_channel_only DEBUG lines.
Proof.
  destruct st as [ns reg out evs].
  destruct d as [| | | |items|members];
    try (exists []; cbn; rewrite app_nil_r; split; [reflexivity|apply side_channel_nil]; fail).
  unfold_py.
  destruct (field members "script_content" (JStr "")) as [| | |src| |];
    try (exists []; cbn; rewrite app_nil_r; split; [reflexivity|apply side_channel_nil]; fail).
  generalize (strip_fences src); intros s.
  destruct (debug_on DEBUG) eqn:Hd; cbn;
    repeat (case_match; cbn; subst; try discriminate);
    simplify_eq;
    printed.
Qed.

Lemma loop_output (items : list json) (st : state) :
  exists lines,
    st_output (snd (loop items st)) = st_output st ++ lines /\
    side_channel_only DEBUG lines.
Proof.
  revert st. induction items as [|d rest IH]; intros st.
  - exists []. cbn. rewrite app_nil_r. split; [reflexivity|apply side_channel_nil].
  - rewrite loop_cons.
    destruct (rtfs_output d st) as (l1 & E1 & H1).
    destruct (rtfs d st) as [[[]|e] st1]; cbn in E1.
    + destruct (IH st1) as (l2 & E2 & H2).
      exists (l1 ++ l2). rewrite E2, E1, app_assoc.
      split; [reflexivity|apply side_channel_app; assumption].
    + exists l1. cbn. auto.
Qed.

(** C9: a name bound to [None] and a name that is not bound give the
    same run: [.get(name, None)] returns [None] for both, the
    descriptor is skipped with the "not found" line and the table is
    left as it was. *)
Theorem C9_none_is_absent (members : list (string * json)) (n src : string)
        (ns' : namespace) (st : state) :
  field members "name" (JStr "UnnamedTool") = JStr n ->
  field members "script_content" (JStr "") = JStr src ->
  py_exec (strip_fences src) (st_namespace st) = Returns ns' ->
  ns' !! n = Some VNone \/ ns' !! n = None ->
  rtfs (JObj members) st =
  (Ok tt,
   mkState ns' (st_registry st)
     (st_output st ++ debug_lines DEBUG [DRegistering (JStr n); DNotFound (JStr n)])
     (st_events st ++ [EvExec (strip_fences src) (st_namespace st) (Returns ns')])).
Proof.
  intros Hn Hs He Hl. destruct st as [ns reg out evs]; cbn in *.
  unfold_py. rewrite Hn, Hs. unfold debug_lines.
  destruct (debug_on DEBUG); cbn; rewrite He; cbn;
    destruct Hl as [-> | ->]; tidy; reflexivity.
Qed.

(** C3 (amended): when the source has run and the declared name is then unbound,
    bound to [None] or bound to something that is not callable, the
    call returns normally, nothing is handed to the tool table, which
    is left exactly as it was (under the declared name it holds what
    it held before: no entry if there was none), the dictionary keeps what the source did, and the loop goes
    on with the next descriptor. *)
Theorem C3_unresolved_name_is_skipped (members : list (string * json))
        (n src : string) (ns' : namespace) (st : state) (rest : list json) :
  field members "name" (JStr "UnnamedTool") = JStr n ->
  field members "script_content" (JStr "") = JStr src ->
  py_exec (strip_fences src) (st_namespace st) = Returns ns' ->
  match ns' !! n with Some v => callable v = false | None => True end ->
  exists st',
    rtfs (JObj members) st = (Ok tt, st') /\
    st_registry st' = st_registry st /\
    st_registry st' !! n = st_registry st !! n /\
    st_namespace st' = ns' /\
    tool_calls (events_since st st') = [] /\
    loop (JObj members :: rest) st = loop rest st'.
Proof.
  intros Hn Hs He Hl.
  enough (exists st', rtfs (JObj members) st = (Ok tt, st') /\
                      st_registry st' = st_registry st /\
                      st_namespace st' = ns' /\
                      tool_calls (events_since st st') = [])
    as (st' & E & Hr & Hns & Ht).
  { exists st'. rewrite Hr. repeat split; auto using loop_step. }
  destruct st as [ns reg out evs]; cbn in *.
  unfold_py. rewrite Hn, Hs.
  destruct (debug_on DEBUG); cbn; rewrite He; cbn;
    destruct (ns' !! n) as [[]|]; cbn in Hl; try discriminate; cbn;
    (eexists; split; [reflexivity|]);
    cbn; rewrite ?drop_app_length; auto.
Qed.

(** *** The whole of [register_tools] *)

Variable read_json : string -> pyexn + json.

Local Abbreviation reg_tools := (register_tools py_exec tool_check read_json DEBUG).

(** [register_tools] is the loop over the loaded items, with every
    exception of class [Exception] absorbed and some lines printed. *)
Lemma register_tools_core (path : string) (st : state) :
  match loaded_items read_json path with
  | inr items =>
      core (snd (reg_tools path st)) = core (snd (loop items st)) /\
      fst (reg_tools path st) =
      match fst (loop items st) with
      | Ok _ => Ok tt
      | Raise e => if is_Exception e then Ok tt else Raise e
      end
  | inl e =>
      core (snd (reg_tools path st)) = core st /\
      fst (reg_tools path st) = if is_Exception e then Ok tt else Raise e
  end.
Proof.
  unfold loaded_items, register_tools, json_load, py_iter, get_tools.
  unfold debug, print, try_except, bind, ret, raise.
  destruct (read_json path) as [e|v].
  - destruct st as [ns reg out evs].
    destruct e; destruct (debug_on DEBUG); cbn; auto.
  - destruct v as [| | |s|items|members];
      try (destruct st as [ns reg out evs]; destruct (debug_on DEBUG); cbn; auto; fail).
    + destruct (loop _ st) as [[[]|e] [ns1 reg1 out1 evs1]];
        [|destruct e]; destruct (debug_on DEBUG); cbn; auto.
    + destruct (loop items st) as [[[]|e] [ns1 reg1 out1 evs1]];
        [|destruct e]; destruct (debug_on DEBUG); cbn; auto.
    + destruct (loop _ st) as [[[]|e] [ns1 reg1 out1 evs1]];
        [|destruct e]; destruct (debug_on DEBUG); cbn; auto.
Qed.

(** C2: every call of [exec] in a run of the loop works on the one
    dictionary: the first call gets the dictionary of the state, each
    later call gets exactly the dictionary the call before it left
    (so it sees every symbol that call defined, also when that call
    raised), and the dictionary after the loop is the one the last
    call left (a name bound by two sources holds the later binding). *)
Theorem C2_namespace_is_shared (items : list json) (st : state) :
  let st' := snd (loop items st) in
  let calls := exec_calls (events_since st st') in
  (forall c, head calls = Some c -> call_in c = st_namespace st) /\
  (forall i c1 c2, calls !! i = Some c1 -> calls !! S i = Some c2 ->
                   call_in c2 = outcome_ns (call_out c1)) /\
  (forall c, c ∈ calls -> call_out c = py_exec (call_src c) (call_in c)) /\
  (forall c, last calls = Some c -> st_namespace st' = outcome_ns (call_out c)).
Proof.
  intros st' calls. subst st' calls.
  destruct (loop_effect items st) as (new & k & Hev & _ & Hch & _).
  rewrite (events_since_eq _ _ _ Hev).
  apply chained_spec. exact Hch.
Qed.

(** C8: the calls of [exec] made by the loop are those for the first
    [k] items of the list, one call per item and in the order of the
    list; [k] is the length of the list when the loop ends normally;
    and the call for an item starts on the dictionary that the call
    for the item before it has left, that is, after it has ended. *)
Theorem C8_processed_in_order (items : list json) (st : state) :
  let st' := snd (loop items st) in
  let calls := exec_calls (events_since st st') in
  (exists k, map (fun c => Some (call_src c)) calls = map script_of (take k items) /\
             (fst (loop items st) = Ok tt -> k = length items)) /\
  (forall i c1 c2, calls !! i = Some c1 -> calls !! S i = Some c2 ->
                   call_in c2 = outcome_ns (call_out c1)).
Proof.
  intros st' calls. subst st' calls.
  destruct (loop_effect items st) as (new & k & Hev & _ & Hch & Hk & Hok).
  rewrite (events_since_eq _ _ _ Hev).
  split; [exists k; auto|].
  apply (chained_spec _ _ _ Hch).
Qed.

(** C1 (amended): a descriptor whose source raises an exception of
    class [Exception] is abandoned: its call returns normally, nothing
    is handed to the tool table, which keeps every entry made before,
    the dictionary keeps what the source did before raising, and the
    rest of the batch is processed from there.  Whatever the registry
    file holds, no exception of class [Exception] leaves
    [register_tools]. *)
Theorem C1_failed_evaluation_is_isolated (members : list (string * json))
        (src : string) (e : pyexn) (ns' : namespace)
        (pre post : list json) (st0 st : state) :
  loop pre st0 = (Ok tt, st) ->
  field members "script_content" (JStr "") = JStr src ->
  py_exec (strip_fences src) (st_namespace st) = Raises e ns' ->
  is_Exception e = true ->
  (exists st',
      rtfs (JObj members) st = (Ok tt, st') /\
      st_registry st' = st_registry st /\
      st_namespace st' = ns' /\
      tool_calls (events_since st st') = [] /\
      loop (pre ++ JObj members :: post) st0 = loop post st') /\
  (forall path st1 e',
      fst (reg_tools path st1) = Raise e' -> is_Exception e' = false).
Proof.
  intros Hpre Hs He Hexn. split.
  - enough (exists st', rtfs (JObj members) st = (Ok tt, st') /\
                        st_registry st' = st_registry st /\
                        st_namespace st' = ns' /\
                        tool_calls (events_since st st') = [])
      as (st' & E & Hr & Hns & Ht).
    { exists st'. repeat split; auto.
      rewrite loop_app, Hpre. apply loop_step. exact E. }
    destruct st as [ns reg out evs]; cbn in *.
    unfold_py. rewrite Hs.
    destruct (debug_on DEBUG); cbn; rewrite He; cbn; rewrite Hexn; cbn;
      (eexists; split; [reflexivity|]);
      cbn; rewrite ?drop_app_length; auto.
  - intros path st1 e' H.
    pose proof (register_tools_core path st1) as Hc.
    destruct (loaded_items read_json path) as [e0|items].
    + destruct Hc as [_ Hf]. rewrite Hf in H.
      destruct (is_Exception e0) eqn:E0; congruence.
    + destruct Hc as [_ Hf]. rewrite Hf in H.
      destruct (fst (loop items st1)) as [[]|e0]; [discriminate|].
      destruct (is_Exception e0) eqn:E0; congruence.
Qed.

Lemma loop_on_strings (items : list json) (st : state) :
  Forall (fun d => exists s, d = JStr s) items ->
  snd (loop items st) = st /\
  (fst (loop items st) = Ok tt \/ fst (loop items st) = Raise AttributeError).
Proof.
  intros H. destruct H as [|d rest [s ->] _]; cbn; auto.
Qed.

(** C6: when the registry file is missing, is not JSON, or holds a
    JSON value that is not a list, [register_tools] returns normally,
    registers nothing and leaves the tool table and the dictionary as
    they were, and [__main__] goes on to serve; started from the
    initial state it serves an empty table. *)
Theorem C6_unloadable_registry_still_serves (path : string) (st : state) :
  unloadable (read_json path) ->
  (exists st',
      reg_tools path st = (Ok tt, st') /\
      st_registry st' = st_registry st /\
      st_namespace st' = st_namespace st /\
      st_events st' = st_events st /\
      main py_exec tool_check read_json DEBUG path st = Serving st') /\
  (exists st',
      main py_exec tool_check read_json DEBUG path initial_state = Serving st' /\
      st_registry st' = ∅).
Proof.
  intros Hu.
  assert (Hgen : forall s0, exists s1,
             reg_tools path s0 = (Ok tt, s1) /\ core s1 = core s0).
  { intros s0. pose proof (register_tools_core path s0) as Hc.
    unfold loaded_items in Hc.
    destruct (reg_tools path s0) as [r s1]; cbn in Hc. exists s1.
    destruct Hu as [Hu|[Hu|(v & Hu & Hv)]]; rewrite Hu in Hc; cbn in Hc.
    - destruct Hc as [-> ->]. auto.
    - destruct Hc as [-> ->]. auto.
    - destruct v as [| | |s|items|ms]; try (destruct Hc as [-> ->]; auto; fail).
      + destruct (loop_on_strings
                    (map (fun c => JStr (String c EmptyString)) (list_ascii_of_string s)) s0)
          as [Hst Hr].
        { apply Forall_forall. intros d (c & -> & _)%list_elem_of_fmap. eauto. }
        rewrite Hst in Hc. destruct Hc as [-> ->].
        destruct Hr as [-> | ->]; auto.
      + exfalso. apply (Hv items). reflexivity.
      + destruct (loop_on_strings (map (fun kv => JStr (fst kv)) ms) s0) as [Hst Hr].
        { apply Forall_forall. intros d (c & -> & _)%list_elem_of_fmap. eauto. }
        rewrite Hst in Hc. destruct Hc as [-> ->].
        destruct Hr as [-> | ->]; auto. }
  split.
  - destruct (Hgen st) as (s1 & E & Hc). exists s1.
    unfold core in Hc. injection Hc as Hns Hreg Hev.
    unfold main. rewrite E. auto.
  - destruct (Hgen initial_state) as (s1 & E & Hc). exists s1.
    unfold core in Hc. injection Hc as Hns Hreg Hev.
    unfold main. rewrite E. auto.
Qed.

(** The same for [register_tools]: nothing is ever written to
    [sys.stdout], and with the debug flag off nothing but the
    tracebacks of the second handler of [register_tool_from_script]. *)
Lemma register_tools_output (path : string) (st : state) :
  exists lines,
    st_output (snd (reg_tools path st)) = st_output st ++ lines /\
    side_channel_only DEBUG lines.
Proof.
  assert (Hloop : forall items,
             exists lines,
               st_output
                 (snd ((try_except (for_each py_exec tool_check DEBUG items)
                          (fun e =>
                             match e with
                             | FileNotFoundError => Some (debug DEBUG (DFileNotFound path))
                             | JSONDecodeError => Some (debug DEBUG (DJsonError path))
                             | _ => if is_Exception e
                                    then Some (debug DEBUG (DUnexpected e)) else None
                             end) >>
                        debug DEBUG DAllRegistered >>
                        let* mcp_tools := get_tools in
                        debug DEBUG (DRegisteredTools (dom mcp_tools))) st))
               = st_output st ++ lines /\
               side_channel_only DEBUG lines).
  { intros items. destruct (loop_output items st) as (l1 & E1 & H1).
    unfold get_tools, debug, print, try_except, bind, ret, raise.
    destruct (loop items st) as [[[]|e] [ns1 reg1 out1 evs1]]; cbn in E1; subst out1;
      [|destruct e]; destruct (debug_on DEBUG) eqn:Hd; cbn;
      printed. }
  unfold register_tools, json_load, py_iter.
  destruct (read_json path) as [e|v].
  - destruct st as [ns reg out evs].
    unfold get_tools, debug, print, try_except, bind, ret, raise.
    destruct e; destruct (debug_on DEBUG) eqn:Hd; cbn;
      printed.
  - destruct v as [| | |s|items|members];
      try apply Hloop;
      (destruct st as [ns reg out evs];
       unfold get_tools, debug, print, try_except, bind, ret, raise;
       destruct (debug_on DEBUG) eqn:Hd; cbn;
       printed).
Qed.

Lemma register_tools_effect (path : string) (st : state) :
  exists new,
    st_events (snd (reg_tools path st)) = st_events st ++ new /\
    st_registry (snd (reg_tools path st)) = foldl upsert (st_registry st) (tool_calls new).
Proof.
  pose proof (register_tools_core path st) as Hc.
  destruct (loaded_items read_json path) as [e|items].
  - destruct Hc as [Hc _]. injection Hc as _ Hreg Hev.
    exists []. rewrite app_nil_r. auto.
  - destruct Hc as [Hc _]. injection Hc as _ Hreg Hev.
    destruct (loop_effect items st) as (new & k & Hev' & Hreg' & _).
    exists new. rewrite Hev, Hreg. auto.
Qed.

(** C7 (amended): a second call of [register_tools] on the same file
    deletes no entry; the table after a call is the table before it
    with the tools that call registered upserted in order; and when
    the second call registers the same tools as the first, the table
    after it is the table after the first. *)
Theorem C7_second_pass_is_upsert (path : string) (st0 : state) :
  let st1 := snd (reg_tools path st0) in
  let st2 := snd (reg_tools path st1) in
  (forall k, is_Some (st_registry st1 !! k) -> is_Some (st_registry st2 !! k)) /\
  st_registry st1 =
    foldl upsert (st_registry st0) (tools_registered_by (reg_tools path) st0) /\
  (tools_registered_by (reg_tools path) st1 = tools_registered_by (reg_tools path) st0 ->
   st_registry st2 = st_registry st1).
Proof.
  intros st1 st2. subst st1 st2. unfold tools_registered_by.
  destruct (register_tools_effect path st0) as (new1 & Hev1 & Hreg1).
  destruct (register_tools_effect path (snd (reg_tools path st0))) as (new2 & Hev2 & Hreg2).
  rewrite (events_since_eq _ _ _ Hev1), (events_since_eq _ _ _ Hev2).
  repeat split.
  - intros k Hk. rewrite Hreg2. apply foldl_upsert_keeps. exact Hk.
  - exact Hreg1.
  - intros Hsame. rewrite Hreg2, Hsame, Hreg1. apply foldl_upsert_idem.
Qed.

Lemma assoc_app (k : string) (a b : list (string * json)) :
  assoc k (a ++ b) = match assoc k a with Some v => Some v | None => assoc k b end.
Proof.
  induction a as [|[k' v] a IH]; cbn; [reflexivity|].
  destruct (String.eqb k k'); auto.
Qed.

(** C10 (amended): an object lacking some of the three members runs
    exactly as the object with the defaults of lines 33-35 filled in.
    When the source is the missing one, the empty source is executed
    (it binds nothing); if the name is then unbound, or bound to
    something that is not callable, the descriptor is skipped and the
    table is unchanged; and in any case the call returns normally, as
    long as FastMCP rejects a tool only with exceptions of class
    [Exception]. *)
Theorem C10_missing_fields_default (members : list (string * json)) (st : state) :
  rtfs (JObj members) st = rtfs (JObj (members ++ default_fields)) st /\
  (assoc "script_content" members = None ->
   (forall ns, py_exec "" ns = Returns (with_builtins ns)) ->
   forall n, field members "name" (JStr "UnnamedTool") = JStr n ->
     (match with_builtins (st_namespace st) !! n with
      | Some v => callable v = false
      | None => True
      end ->
      exists st',
        rtfs (JObj members) st = (Ok tt, st') /\
        st_registry st' = st_registry st /\
        st_namespace st' = with_builtins (st_namespace st) /\
        tool_calls (events_since st st') = []) /\
     ((forall f d e, tool_check f n d = Some e -> is_Exception e = true) ->
      fst (rtfs (JObj members) st) = Ok tt)).
Proof.
  split.
  - unfold register_tool_from_script, dict_get, field.
    rewrite !assoc_app. cbn.
    destruct (assoc "name" members), (assoc "description" members),
      (assoc "script_content" members); reflexivity.
  - intros Hmiss Hempty n Hn.
    assert (Hs : field members "script_content" (JStr "") = JStr "")
      by (unfold field; rewrite Hmiss; reflexivity).
    destruct st as [ns reg out evs]; cbn in *.
    split.
    + intros Hl. unfold_py. rewrite Hn, Hs. change (strip_fences "") with "".
      destruct (debug_on DEBUG); cbn; rewrite Hempty; cbn;
        destruct (with_builtins ns !! n) as [[]|]; cbn in Hl; try discriminate; cbn;
        (eexists; split; [reflexivity|]);
        cbn; rewrite ?drop_app_length; auto.
    + intros Hchk. unfold_py. rewrite Hn, Hs. change (strip_fences "") with "".
      destruct (debug_on DEBUG); cbn; rewrite Hempty; cbn;
        destruct (with_builtins ns !! n) as [[]|]; cbn; try reflexivity;
        (destruct (tool_check _ n _) as [e|] eqn:Et; cbn;
         [rewrite (Hchk _ _ _ Et); reflexivity | reflexivity]).
Qed.

End Registration.

(** ** The theorems at work on the example registries *)

Section Examples.

Import PyLite Demo.
Local Open Scope list_scope.

Lemma exec_empty_source (ns : namespace) :
  PyLite.exec "" ns = Returns (with_builtins ns).
Proof. reflexivity. Qed.

(** A source without fence markers at its ends is executed as it is. *)
Lemma strip_fences_unfenced (s : string) :
  PyStr.startswith s "```python" = false ->
  PyStr.endswith s "```" = false ->
  strip_fences s = s.
Proof. intros H1 H2. unfold strip_fences. rewrite H1, H2. reflexivity. Qed.

(** C4: on a fenced source whose text contains the opening marker
    again, [strip_fences] also deletes the inner occurrence: the
    result is not the text between the two fences. *)
Theorem C4_inner_marker_is_deleted :
  strip_fences fenced_with_inner_marker = (nl ++ "DOC = ''" ++ nl)%string /\
  strip_fences fenced_with_inner_marker <> inner_marker_kept.
Proof. split; [reflexivity | discriminate]. Qed.

(** C5: with [DEBUG] unset, registering a descriptor that binds its
    name to an integer prints the traceback of the failed
    [inspect.signature] on [sys.stderr]. *)
Theorem C5_traceback_without_debug :
  st_output (snd (run None not_callable initial_state)) =
  [(Stderr, DTraceback TypeError)].
Proof. reflexivity. Qed.

(** C1, as stated, fails: the source [raise SystemExit] raises during
    evaluation, the exception leaves [register_tools], and the sound
    descriptor after it (registered when alone) gets no entry. *)
Lemma C1_system_exit_escapes :
  PyLite.exec (strip_fences "raise SystemExit") ∅ = Raises SystemExit (with_builtins ∅) /\
  fst (run None exits_then_add initial_state) = Raise SystemExit /\
  st_registry (snd (run None exits_then_add initial_state)) !! "add" = None /\
  is_Some (st_registry (snd (run None (JArr [add_tool]) initial_state)) !! "add").
Proof. vm_compute. repeat split; eauto. Qed.

(** C7, as stated, fails: after one pass over [forward_reference] the
    table has no entry "g"; after a second pass it has one. *)
Lemma C7_second_pass_adds_entry :
  let st1 := snd (run None forward_reference initial_state) in
  let st2 := snd (run None forward_reference st1) in
  st_registry st1 !! "g" = None /\
  is_Some (st_registry st2 !! "g") /\
  st_registry st2 <> st_registry st1.
Proof.
  cbv zeta. split; [vm_compute; reflexivity|].
  split; [vm_compute; eauto|].
  intros E. apply (f_equal (fun m : registry_t => m !! "g")) in E.
  vm_compute in E. discriminate E.
Qed.

(** C10, as stated, fails: the second object of [rebinding] has no
    source, yet it is not skipped: it is registered, under its own
    description, with the function the first object defined. *)
Lemma C10_sourceless_descriptor_registered :
  assoc "script_content" no_source_second = None /\
  tool_calls (st_events (snd (run None rebinding initial_state))) =
    [mkTool "f" (JStr "first") (VFunc "f" [] "return 1") [];
     mkTool "f" (JStr "second") (VFunc "f" [] "return 1") []] /\
  st_registry (snd (run None rebinding initial_state)) !! "f" =
    Some (mkTool "f" (JStr "second") (VFunc "f" [] "return 1") []).
Proof. vm_compute. repeat split. Qed.

(** C3, as stated, fails: the second source of [stale_entry] runs and
    leaves the declared name bound to an integer, nothing is raised,
    and the table still holds an entry under that name (the one the
    first descriptor made). *)
Lemma C3_stale_entry_remains :
  let st1 := snd (run None (JArr [descriptor "x" "first" "def x(): return 1"])
                      initial_state) in
  let st2 := snd (run None stale_entry initial_state) in
  PyLite.exec (strip_fences "x = 5") (st_namespace st1) = Returns (st_namespace st2) /\
  st_namespace st2 !! "x" = Some (VInt 5) /\
  callable (VInt 5) = false /\
  fst (run None stale_entry initial_state) = Ok tt /\
  st_registry st2 !! "x" = Some (mkTool "x" (JStr "first") (VFunc "x" [] "return 1") []).
Proof. vm_compute. repeat split. Qed.

Lemma C9_none_is_absent_witness :
  register_tool_from_script PyLite.exec accept_all None (JObj bound_to_none) initial_state =
  (Ok tt,
   mkState (outcome_ns (PyLite.exec "t = None" ∅)) ∅ []
     [EvExec "t = None" ∅ (Returns (outcome_ns (PyLite.exec "t = None" ∅)))]).
Proof.
  apply (C9_none_is_absent PyLite.exec accept_all None bound_to_none
           "t" "t = None" (outcome_ns (PyLite.exec "t = None" ∅)) initial_state).
  - reflexivity.
  - reflexivity.
  - vm_compute. reflexivity.
  - left. vm_compute. reflexivity.
Defined.

Lemma C3_unresolved_name_is_skipped_witness :
  exists st',
    register_tool_from_script PyLite.exec accept_all None (JObj int_members) initial_state
    = (Ok tt, st') /\
    st_registry st' = st_registry initial_state /\
    st_registry st' !! "x" = st_registry initial_state !! "x" /\
    st_namespace st' = outcome_ns (PyLite.exec "x = 5" ∅) /\
    tool_calls (events_since initial_state st') = [] /\
    for_each PyLite.exec accept_all None (JObj int_members :: [add_tool]) initial_state
    = for_each PyLite.exec accept_all None [add_tool] st'.
Proof.
  apply (C3_unresolved_name_is_skipped PyLite.exec accept_all None int_members
           "x" "x = 5" (outcome_ns (PyLite.exec "x = 5" ∅)) initial_state [add_tool]).
  - reflexivity.
  - reflexivity.
  - vm_compute. reflexivity.
  - vm_compute. reflexivity.
Defined.

Lemma C1_failed_evaluation_is_isolated_witness :
  (exists st',
      register_tool_from_script PyLite.exec accept_all None (JObj bad_members) initial_state
      = (Ok tt, st') /\
      st_registry st' = st_registry initial_state /\
      st_namespace st' = outcome_ns (PyLite.exec "raise ValueError" ∅) /\
      tool_calls (events_since initial_state st') = [] /\
      for_each PyLite.exec accept_all None ([] ++ JObj bad_members :: [add_tool]) initial_state
      = for_each PyLite.exec accept_all None [add_tool] st') /\
  is_Exception SystemExit = false.
Proof.
  destruct (C1_failed_evaluation_is_isolated PyLite.exec accept_all None
              (one_file registry_path exits_then_add) bad_members
              "raise ValueError" ValueError
              (outcome_ns (PyLite.exec "raise ValueError" ∅))
              [] [add_tool] initial_state initial_state) as [H1 H2].
  - reflexivity.
  - reflexivity.
  - vm_compute. reflexivity.
  - reflexivity.
  - split; [exact H1|].
    apply (H2 registry_path initial_state). vm_compute. reflexivity.
Defined.

Lemma C2_namespace_is_shared_witness :
  call_in call_g = st_namespace initial_state /\
  call_in call_helper = outcome_ns (call_out call_g) /\
  call_out call_helper = PyLite.exec (call_src call_helper) (call_in call_helper) /\
  st_namespace (snd (for_each PyLite.exec accept_all None forward_items initial_state))
  = outcome_ns (call_out call_helper).
Proof.
  destruct (C2_namespace_is_shared PyLite.exec accept_all None forward_items initial_state)
    as (H1 & H2 & H3 & H4).
  split; [|split; [|split]].
  - apply H1. vm_compute. reflexivity.
  - apply (H2 0 call_g call_helper); vm_compute; reflexivity.
  - apply H3. apply list_elem_of_lookup. exists 1. vm_compute. reflexivity.
  - apply H4. vm_compute. reflexivity.
Defined.

Lemma C8_processed_in_order_witness :
  (exists k,
      map (fun c => Some (call_src c))
          (exec_calls (events_since initial_state
             (snd (for_each PyLite.exec accept_all None forward_items initial_state))))
      = map script_of (take k forward_items) /\
      k = length forward_items) /\
  call_in call_helper = outcome_ns (call_out call_g).
Proof.
  destruct (C8_processed_in_order PyLite.exec accept_all None forward_items initial_state)
    as ((k & Hk & Hlen) & Hadj).
  split.
  - exists k. split; [exact Hk|]. apply Hlen. vm_compute. reflexivity.
  - apply (Hadj 0 call_g call_helper); vm_compute; reflexivity.
Defined.

Lemma C6_unloadable_registry_still_serves_witness :
  (exists st',
      register_tools PyLite.exec accept_all (one_file registry_path forward_reference) None
                     "missing.json" initial_state = (Ok tt, st') /\
      st_registry st' = st_registry initial_state /\
      st_namespace st' = st_namespace initial_state /\
      st_events st' = st_events initial_state /\
      main PyLite.exec accept_all (one_file registry_path forward_reference) None
           "missing.json" initial_state = Serving st') /\
  (exists st',
      main PyLite.exec accept_all (one_file registry_path forward_reference) None
           "missing.json" initial_state = Serving st' /\
      st_registry st' = ∅).
Proof.
  apply (C6_unloadable_registry_still_serves PyLite.exec accept_all None
           (one_file registry_path forward_reference) "missing.json" initial_state).
  left. reflexivity.
Defined.

Lemma C7_second_pass_is_upsert_witness :
  is_Some (st_registry (snd (run None (JArr [add_tool])
                               (snd (run None (JArr [add_tool]) initial_state)))) !! "add") /\
  st_registry (snd (run None (JArr [add_tool])
                      (snd (run None (JArr [add_tool]) initial_state))))
  = st_registry (snd (run None (JArr [add_tool]) initial_state)).
Proof.
  destruct (C7_second_pass_is_upsert PyLite.exec accept_all None
              (one_file registry_path (JArr [add_tool])) registry_path initial_state)
    as (H1 & H2 & H3).
  split.
  - apply H1. vm_compute. eauto.
  - apply H3. vm_compute. reflexivity.
Defined.

Lemma C10_missing_fields_default_witness :
  register_tool_from_script PyLite.exec accept_all None (JObj name_only) initial_state
  = register_tool_from_script PyLite.exec accept_all None
      (JObj (name_only ++ default_fields)) initial_state /\
  (exists st',
      register_tool_from_script PyLite.exec accept_all None (JObj name_only) initial_state
      = (Ok tt, st') /\
      st_registry st' = st_registry initial_state /\
      st_namespace st' = with_builtins (st_namespace initial_state) /\
      tool_calls (events_since initial_state st') = []) /\
  fst (register_tool_from_script PyLite.exec accept_all None (JObj name_only) initial_state)
  = Ok tt.
Proof.
  destruct (C10_missing_fields_default PyLite.exec accept_all None name_only initial_state)
    as [H1 H2].
  destruct (H2 eq_refl exec_empty_source "ghost" eq_refl) as [H3 H4].
  split; [exact H1|]. split.
  - apply H3. vm_compute. exact I.
  - apply H4. intros f d e E. discriminate E.
Defined.

End Examples.

(** ** Fence stripping (lines 37-40) on its own *)

Section Fences.

Local Open Scope list_scope.

Lemma replace_from_cons (old new : string) (skip : nat) (c : ascii) (s : string) :
  PyStr.replace_from old new skip (String c s) =
  match skip with
  | S k => PyStr.replace_from old new k s
  | O =>
      if String.prefix old (String c s)
      then (new ++ PyStr.replace_from old new (String.length old - 1) s)%string
      else String c (PyStr.replace_from old new 0 s)
  end.
Proof. reflexivity. Qed.

Lemma replace_from_deletes (old : string) (skip : nat) (s : string) :
  list_ascii_of_string (PyStr.replace_from old "" skip s)
  `sublist_of` list_ascii_of_string s.
Proof.
  revert skip. induction s as [|c s IH]; intros skip.
  - constructor.
  - rewrite replace_from_cons. destruct skip as [|k].
    + destruct (String.prefix old (String c s)).
      * change (list_ascii_of_string (String c s)) with (c :: list_ascii_of_string s).
        apply sublist_cons. apply IH.
      * change (list_ascii_of_string (String c s)) with (c :: list_ascii_of_string s).
        change (list_ascii_of_string (String c ?x)) with (c :: list_ascii_of_string x).
        apply sublist_skip. apply IH.
    + change (list_ascii_of_string (String c s)) with (c :: list_ascii_of_string s).
      apply sublist_cons. apply IH.
Qed.

(** X14: Fence stripping only deletes characters: what is handed to [exec]
    is the given text with some characters left out, in the same order. *)
Theorem strip_fences_only_deletes (s : string) :
  list_ascii_of_string (strip_fences s) `sublist_of` list_ascii_of_string s.
Proof.
  unfold strip_fences, PyStr.replace.
  set (s1 := if PyStr.startswith s "```python"
             then PyStr.replace_from "```python" "" 0 s else s).
  assert (H1 : list_ascii_of_string s1 `sublist_of` list_ascii_of_string s).
  { subst s1. destruct (PyStr.startswith s "```python");
      [apply replace_from_deletes | reflexivity]. }
  destruct (PyStr.endswith s1 "```"); [|exact H1].
  etransitivity; [apply replace_from_deletes | exact H1].
Qed.

End Fences.

Section FencedSources.

Lemma backtick_free_cons (c : ascii) (s : string) :
  backtick_free (String c s) = true -> c <> "`"%char /\ backtick_free s = true.
Proof.
  unfold backtick_free. cbn. intros [Hc Hs]%andb_true_iff. split; [|exact Hs].
  intros ->. discriminate Hc.
Qed.

Lemma prefix_backtick_head (p s : string) (c : ascii) :
  c <> "`"%char -> String.prefix (String "`" p) (String c s) = false.
Proof.
  intros Hc.
  change (String.prefix (String "`" p) (String c s))
    with (match ascii_dec "`" c with
          | left _ => String.prefix p s
          | right _ => false
          end).
  destruct (ascii_dec "`" c) as [E|_]; [|reflexivity].
  exfalso. apply Hc. symmetry. exact E.
Qed.

Lemma replace_from_free (p body tail : string) :
  backtick_free body = true ->
  PyStr.replace_from (String "`" p) "" 0 (body ++ tail) =
  body ++ PyStr.replace_from (String "`" p) "" 0 tail.
Proof.
  induction body as [|c body IH]; intros Hf.
  - reflexivity.
  - apply backtick_free_cons in Hf as [Hc Hf].
    change (String c body ++ tail) with (String c (body ++ tail)).
    rewrite replace_from_cons, (prefix_backtick_head _ _ _ Hc), IH by exact Hf.
    reflexivity.
Qed.

Lemma length_append (a b : string) :
  String.length (a ++ b) = (String.length a + String.length b)%nat.
Proof. induction a as [|c a IH]; [reflexivity | simpl; f_equal; exact IH]. Qed.

Lemma substring_whole (s : string) :
  String.substring 0 (String.length s) s = s.
Proof. induction s as [|c s IH]; [reflexivity | simpl; f_equal; exact IH]. Qed.

Lemma substring_append_skip (a b : string) (m : nat) :
  String.substring (String.length a) m (a ++ b) = String.substring 0 m b.
Proof. induction a as [|c a IH]; cbn; [reflexivity | exact IH]. Qed.

Lemma endswith_append (a p : string) :
  PyStr.endswith (a ++ p) p = true.
Proof.
  unfold PyStr.endswith. rewrite length_append.
  replace (String.length p <=? String.length a + String.length p)%nat with true
    by (symmetry; apply Nat.leb_le; lia).
  replace (String.length a + String.length p - String.length p)%nat
    with (String.length a) by lia.
  rewrite substring_append_skip, substring_whole. apply String.eqb_refl.
Qed.

Lemma substring_head_in (s : string) (k m : nat) (c : ascii) (r : string) :
  String.substring k m s = String c r -> In c (list_ascii_of_string s).
Proof.
  revert k. induction s as [|a s IH]; intros k H.
  - destruct k, m; discriminate H.
  - destruct k as [|k].
    + destruct m as [|m]; [discriminate H|]. cbn in H. injection H as -> _.
      left. reflexivity.
    + right. eapply IH. exact H.
Qed.

Lemma endswith_free (body : string) :
  backtick_free body = true -> PyStr.endswith body "```" = false.
Proof.
  intros Hf. unfold PyStr.endswith.
  destruct (String.length "```" <=? String.length body)%nat; [|reflexivity].
  apply String.eqb_neq. intros H.
  apply substring_head_in in H.
  unfold backtick_free in Hf. rewrite forallb_forall in Hf.
  specialize (Hf _ H). discriminate Hf.
Qed.

Lemma startswith_free (body : string) :
  backtick_free body = true ->
  PyStr.startswith (body ++ "```") "```python" = false /\
  PyStr.startswith body "```python" = false.
Proof.
  intros Hf. destruct body as [|c body].
  - split; reflexivity.
  - apply backtick_free_cons in Hf as [Hc _].
    unfold PyStr.startswith.
    change (String c body ++ "```") with (String c (body ++ "```")).
    rewrite !(prefix_backtick_head _ _ _ Hc). split; reflexivity.
Qed.

Lemma append_empty (s : string) : s ++ "" = s.
Proof.
  induction s as [|c s IH]; [reflexivity|].
  change (String c s ++ "") with (String c (s ++ "")). f_equal. exact IH.
Qed.

Lemma prefix_append (p tail : string) : String.prefix p (p ++ tail) = true.
Proof.
  induction p as [|c p IH].
  - destruct tail; reflexivity.
  - change (String.prefix (String c p) (String c p ++ tail))
      with (match ascii_dec c c with
            | left _ => String.prefix p (p ++ tail)
            | right _ => false
            end).
    destruct (ascii_dec c c) as [_|N]; [exact IH | exfalso; apply N; reflexivity].
Qed.

(** X13: A source in which no backtick occurs is handed to [exec] exactly,
    whether it comes wrapped in both fence markers, with only the
    opening one, with only the closing one, or bare. *)
Theorem strip_fences_backtick_free (body : string) :
  backtick_free body = true ->
  strip_fences ("```python" ++ body ++ "```") = body /\
  strip_fences ("```python" ++ body) = body /\
  strip_fences (body ++ "```") = body /\
  strip_fences body = body.
Proof.
  intros Hf.
  destruct (startswith_free body Hf) as [Hs1 Hs2].
  pose proof (endswith_free body Hf) as He.
  assert (Hopen : forall tail,
             PyStr.replace ("```python" ++ body ++ tail) "```python" ""
             = body ++ PyStr.replace_from "```python" "" 0 tail).
  { intros tail. unfold PyStr.replace.
    change ("```python" ++ body ++ tail) with (String "`" ("``python" ++ body ++ tail)).
    rewrite replace_from_cons.
    change (String "`" ("``python" ++ body ++ tail)) with ("```python" ++ body ++ tail).
    rewrite prefix_append.
    change ("" ++ PyStr.replace_from "```python" "" (String.length "```python" - 1)
                    ("``python" ++ body ++ tail))
      with (PyStr.replace_from "```python" "" 0 (body ++ tail)).
    apply replace_from_free. exact Hf. }
  assert (Hclose : PyStr.replace (body ++ "```") "```" "" = body).
  { unfold PyStr.replace. rewrite replace_from_free by exact Hf.
    change (PyStr.replace_from "```" "" 0 "```") with "".
    apply append_empty. }
  assert (Hopen0 : PyStr.replace ("```python" ++ body) "```python" "" = body).
  { pose proof (Hopen "") as H.
    change (PyStr.replace_from "```python" "" 0 "") with "" in H.
    rewrite !append_empty in H. exact H. }
  repeat split.
  - unfold strip_fences.
    rewrite (prefix_append "```python" (body ++ "```") : PyStr.startswith _ _ = true), Hopen.
    change (PyStr.replace_from "```python" "" 0 "```") with "```".
    rewrite endswith_append. exact Hclose.
  - unfold strip_fences.
    rewrite (prefix_append "```python" body : PyStr.startswith _ _ = true).
    rewrite Hopen0, He. reflexivity.
  - unfold strip_fences. rewrite Hs1, endswith_append. exact Hclose.
  - unfold strip_fences. rewrite Hs2, He. reflexivity.
Qed.

End FencedSources.

(** ** The debug flag and the printed lines have no part in registration *)

Section DebugFlag.

Local Open Scope list_scope.

Variable py_exec : string -> namespace -> outcome.
Variable tool_check : pyval -> string -> json -> option pyexn.
Variable read_json : string -> pyexn + json.

Lemma sim_ret {A} (a : A) : core_sim (ret a) (ret a).
Proof. intros st1 st2 H. cbn. auto. Qed.

Lemma sim_raise {A} (e : pyexn) : core_sim (@raise A e) (raise e).
Proof. intros st1 st2 H. cbn. auto. Qed.

Lemma sim_bind {A B} (m1 m2 : M A) (k1 k2 : A -> M B) :
  core_sim m1 m2 -> (forall a, core_sim (k1 a) (k2 a)) ->
  core_sim (bind m1 k1) (bind m2 k2).
Proof.
  intros Hm Hk st1 st2 H. unfold bind.
  destruct (Hm st1 st2 H) as [Hf Hc].
  destruct (m1 st1) as [r1 s1], (m2 st2) as [r2 s2]. cbn in Hf, Hc. subst r2.
  destruct r1 as [a|e]; [apply Hk; exact Hc | cbn; auto].
Qed.

Lemma sim_try {A} (m1 m2 : M A) (h1 h2 : pyexn -> option (M A)) :
  core_sim m1 m2 ->
  (forall e, match h1 e, h2 e with
             | Some k1, Some k2 => core_sim k1 k2
             | None, None => True
             | _, _ => False
             end) ->
  core_sim (try_except m1 h1) (try_except m2 h2).
Proof.
  intros Hm Hh st1 st2 H. unfold try_except.
  destruct (Hm st1 st2 H) as [Hf Hc].
  destruct (m1 st1) as [r1 s1], (m2 st2) as [r2 s2]. cbn in Hf, Hc. subst r2.
  destruct r1 as [a|e]; [cbn; auto|].
  specialize (Hh e). destruct (h1 e), (h2 e); try contradiction.
  - apply Hh. exact Hc.
  - cbn. auto.
Qed.

Lemma sim_print (c1 c2 : channel) (d1 d2 : diag) :
  core_sim (print c1 d1) (print c2 d2).
Proof.
  intros st1 st2 H. pose proof H as Hc. unfold core in H. injection H as H1 H2 H3.
  cbn. unfold core. cbn. rewrite H1, H2, H3. auto.
Qed.

Lemma sim_debug (D1 D2 : option string) (d1 d2 : diag) :
  core_sim (debug D1 d1) (debug D2 d2).
Proof.
  intros st1 st2 H. unfold debug, print, ret.
  pose proof H as Hc. unfold core in H. injection H as H1 H2 H3.
  destruct (debug_on D1), (debug_on D2); cbn; unfold core; cbn; rewrite ?H1, ?H2, ?H3; auto.
Qed.

Lemma sim_exec (s : string) : core_sim (exec py_exec s) (exec py_exec s).
Proof.
  intros st1 st2 H. unfold exec. pose proof H as Hc. unfold core in H. injection H as H1 H2 H3.
  rewrite H1. destruct (py_exec s (st_namespace st2)); cbn; unfold core; cbn; rewrite ?H2, ?H3; auto.
Qed.

Lemma sim_namespace_get (name : json) :
  core_sim (namespace_get name) (namespace_get name).
Proof.
  intros st1 st2 H. unfold namespace_get.
  assert (Hns : st_namespace st1 = st_namespace st2) by (unfold core in H; congruence).
  rewrite Hns. destruct name as [| | |n| |]; cbn; auto.
  destruct (st_namespace st2 !! n); cbn; auto.
Qed.

Lemma sim_mcp_tool (f : pyval) (name description : json) :
  core_sim (mcp_tool tool_check f name description)
           (mcp_tool tool_check f name description).
Proof.
  intros st1 st2 H. unfold mcp_tool, raise.
  pose proof H as Hc. unfold core in H. injection H as H1 H2 H3.
  destruct f; cbn; auto. destruct name as [| | |n| |]; cbn; auto.
  destruct (tool_check _ n description); cbn; unfold core; cbn; rewrite ?H1, ?H2, ?H3; auto.
Qed.

Lemma sim_dict_get (o : json) (k : string) (dflt : json) :
  core_sim (dict_get o k dflt) (dict_get o k dflt).
Proof. destruct o; cbn; first [apply sim_ret | apply sim_raise]. Qed.

Lemma sim_as_str (v : json) : core_sim (as_str v) (as_str v).
Proof. destruct v; cbn; first [apply sim_ret | apply sim_raise]. Qed.

Lemma sim_inspect_signature (f : pyval) :
  core_sim (inspect_signature f) (inspect_signature f).
Proof. destruct f; cbn; first [apply sim_ret | apply sim_raise]. Qed.

Lemma sim_py_iter (v : json) : core_sim (py_iter v) (py_iter v).
Proof. destruct v; cbn; first [apply sim_ret | apply sim_raise]. Qed.

Lemma sim_json_load (path : string) :
  core_sim (json_load read_json path) (json_load read_json path).
Proof.
  unfold json_load. destruct (read_json path); first [apply sim_ret | apply sim_raise].
Qed.

Lemma sim_get_tools (k1 k2 : registry_t -> M unit) :
  (forall table1 table2, core_sim (k1 table1) (k2 table2)) ->
  core_sim (bind get_tools k1) (bind get_tools k2).
Proof.
  intros Hk st1 st2 H. unfold bind, get_tools. apply Hk. exact H.
Qed.

Lemma sim_rtfs (D1 D2 : option string) (d : json) :
  core_sim (register_tool_from_script py_exec tool_check D1 d)
           (register_tool_from_script py_exec tool_check D2 d).
Proof.
  unfold register_tool_from_script.
  apply sim_bind; [apply sim_dict_get | intros name].
  apply sim_bind; [apply sim_dict_get | intros description].
  apply sim_bind; [apply sim_dict_get | intros script_content].
  apply sim_bind; [apply sim_as_str | intros src]. cbv zeta.
  apply sim_bind; [apply sim_debug | intros _].
  apply sim_bind.
  - apply sim_try.
    + apply sim_bind; [apply sim_exec | intros _; apply sim_ret].
    + intros e. destruct (is_Exception e); cbn; [|exact I].
      apply sim_bind; [apply sim_debug | intros _].
      apply sim_bind; [apply sim_debug | intros _; apply sim_ret].
  - intros failed. destruct failed; [apply sim_ret|].
    apply sim_bind; [apply sim_namespace_get | intros f].
    destruct f; try apply sim_debug;
      (apply sim_try;
       [ apply sim_bind; [apply sim_inspect_signature | intros sig];
         apply sim_bind; [apply sim_debug | intros _];
         apply sim_bind; [apply sim_mcp_tool | intros _; apply sim_debug]
       | intros e; destruct (is_Exception e); cbn; [|exact I];
         apply sim_bind; [apply sim_debug | intros _; apply sim_print] ]).
Qed.

Lemma sim_loop (D1 D2 : option string) (items : list json) :
  core_sim (for_each py_exec tool_check D1 items)
           (for_each py_exec tool_check D2 items).
Proof.
  induction items as [|d rest IH]; cbn [for_each].
  - apply sim_ret.
  - apply sim_bind; [apply sim_rtfs | intros; exact IH].
Qed.

(** X10: Whether [DEBUG] is set, and whatever has been printed before, does
    not change what [register_tools] registers, what it leaves in the
    namespace, which calls it makes, or whether it raises. *)
Theorem debug_flag_is_not_observed (D1 D2 : option string) (path : string)
        (st1 st2 : state) :
  core st1 = core st2 ->
  fst (register_tools py_exec tool_check read_json D1 path st1)
  = fst (register_tools py_exec tool_check read_json D2 path st2) /\
  core (snd (register_tools py_exec tool_check read_json D1 path st1))
  = core (snd (register_tools py_exec tool_check read_json D2 path st2)).
Proof.
  revert st1 st2. change (core_sim (register_tools py_exec tool_check read_json D1 path)
                                   (register_tools py_exec tool_check read_json D2 path)).
  unfold register_tools.
  apply sim_bind.
  2: { intros _. apply sim_bind; [apply sim_debug | intros _].
       apply sim_get_tools. intros table1 table2. apply sim_debug. }
  apply sim_try.
  - apply sim_bind; [apply sim_json_load | intros v].
    apply sim_bind; [apply sim_py_iter | intros items]. apply sim_loop.
  - intros e. destruct e; cbn; first [exact I | apply sim_debug].
Qed.

(** X12: Loading one registry file that holds the list [a ++ b] gives the
    same table, namespace and calls as loading a file that holds [a]
    and then a file that holds [b], provided the pass over [a] ends
    without an exception. *)
Theorem split_registry_file (D : option string) (p pa pb : string)
        (a b : list json) (st : state) :
  read_json p = inr (JArr (a ++ b)) ->
  read_json pa = inr (JArr a) ->
  read_json pb = inr (JArr b) ->
  fst (for_each py_exec tool_check D a st) = Ok tt ->
  let st_a := snd (register_tools py_exec tool_check read_json D pa st) in
  fst (register_tools py_exec tool_check read_json D p st)
  = fst (register_tools py_exec tool_check read_json D pb st_a) /\
  core (snd (register_tools py_exec tool_check read_json D p st))
  = core (snd (register_tools py_exec tool_check read_json D pb st_a)).
Proof.
  intros Hp Hpa Hpb Hok st_a. subst st_a.
  pose proof (register_tools_core py_exec tool_check D read_json p st) as H.
  pose proof (register_tools_core py_exec tool_check D read_json pa st) as Ha.
  pose proof (register_tools_core py_exec tool_check D read_json pb
                (snd (register_tools py_exec tool_check read_json D pa st))) as Hb.
  unfold loaded_items in H, Ha, Hb. rewrite Hp in H. rewrite Hpa in Ha. rewrite Hpb in Hb.
  destruct H as [-> ->], Hb as [-> ->], Ha as [Ha _].
  rewrite loop_app.
  destruct (for_each py_exec tool_check D a st) as [r sa] eqn:Ea.
  cbn in Hok, Ha. subst r.
  destruct (sim_loop D D b sa _ (eq_sym Ha)) as [-> ->]. auto.
Qed.

End DebugFlag.

(** ** More on one descriptor, on the batch and on the driver *)

Section Coverage.

Local Open Scope list_scope.

Variable py_exec : string -> namespace -> outcome.
Variable tool_check : pyval -> string -> json -> option pyexn.
Variable DEBUG : option string.
Variable read_json : string -> pyexn + json.

Local Abbreviation rtfs := (register_tool_from_script py_exec tool_check DEBUG).
Local Abbreviation loop := (for_each py_exec tool_check DEBUG).
Local Abbreviation reg_tools := (register_tools py_exec tool_check read_json DEBUG).
Local Abbreviation serve := (main py_exec tool_check read_json DEBUG).

Ltac unfold_rtfs :=
  unfold register_tool_from_script, mcp_tool, inspect_signature, namespace_get,
    exec, debug, print, dict_get, as_str, try_except, bind, ret, raise.

(** A list item that is not an object, or whose source is not a string,
    raises [AttributeError] before anything is printed or executed. *)
Lemma rtfs_malformed (d : json) (st : state) :
  script_of d = None -> rtfs d st = (Raise AttributeError, st).
Proof.
  unfold script_of. intros H.
  destruct d as [| | | |items|members]; try reflexivity.
  unfold_rtfs.
  destruct (field members "script_content" (JStr "")); try reflexivity.
  discriminate H.
Qed.

Lemma rtfs_valid (members : list (string * json))
      (n src fname body : string) (ps : list param) (ns' : namespace) (st : state) :
  field members "name" (JStr "UnnamedTool") = JStr n ->
  field members "script_content" (JStr "") = JStr src ->
  py_exec (strip_fences src) (st_namespace st) = Returns ns' ->
  ns' !! n = Some (VFunc fname ps body) ->
  tool_check (VFunc fname ps body) n
             (field members "description" (JStr "No description provided.")) = None ->
  let t := mkTool n (field members "description" (JStr "No description provided."))
                  (VFunc fname ps body) ps in
  exists st',
    rtfs (JObj members) st = (Ok tt, st') /\
    st_registry st' = <[n := t]> (st_registry st) /\
    st_namespace st' = ns' /\
    tool_calls (events_since st st') = [t].
Proof.
  intros Hn Hs He Hl Hc t.
  destruct st as [ns reg out evs]; cbn in *.
  unfold_rtfs. rewrite Hn, Hs.
  destruct (debug_on DEBUG); cbn; rewrite He; cbn; rewrite Hl; cbn; rewrite Hc; cbn;
    (eexists; split; [reflexivity|]);
    cbn; rewrite <- ?app_assoc, ?drop_app_length; auto.
Qed.

(** X1: A descriptor whose source runs and binds the declared name to a
    function that FastMCP accepts is registered: the table gets, under
    that name, the function, the declared description and the
    function's parameters (replacing any older entry of that name), and
    the loop goes on. *)
Theorem valid_descriptor_is_registered (members : list (string * json))
        (n src fname body : string) (ps : list param) (ns' : namespace)
        (st : state) (rest : list json) :
  field members "name" (JStr "UnnamedTool") = JStr n ->
  field members "script_content" (JStr "") = JStr src ->
  py_exec (strip_fences src) (st_namespace st) = Returns ns' ->
  ns' !! n = Some (VFunc fname ps body) ->
  tool_check (VFunc fname ps body) n
             (field members "description" (JStr "No description provided.")) = None ->
  let t := mkTool n (field members "description" (JStr "No description provided."))
                  (VFunc fname ps body) ps in
  exists st',
    rtfs (JObj members) st = (Ok tt, st') /\
    st_registry st' = <[n := t]> (st_registry st) /\
    st_registry st' !! n = Some t /\
    st_namespace st' = ns' /\
    tool_calls (events_since st st') = [t] /\
    loop (JObj members :: rest) st = loop rest st'.
Proof.
  intros Hn Hs He Hl Hc t.
  destruct (rtfs_valid members n src fname body ps ns' st Hn Hs He Hl Hc)
    as (st' & E & Hr & Hns & Ht).
  exists st'. rewrite Hr. repeat split; auto using loop_step.
  apply lookup_insert_eq.
Qed.

(** X5: A function that FastMCP rejects with an exception of class
    [Exception] is not registered: the call returns normally, the table
    is unchanged and the loop goes on. *)
Theorem rejected_tool_is_skipped (members : list (string * json))
        (n src fname body : string) (ps : list param) (ns' : namespace)
        (e : pyexn) (st : state) (rest : list json) :
  field members "name" (JStr "UnnamedTool") = JStr n ->
  field members "script_content" (JStr "") = JStr src ->
  py_exec (strip_fences src) (st_namespace st) = Returns ns' ->
  ns' !! n = Some (VFunc fname ps body) ->
  tool_check (VFunc fname ps body) n
             (field members "description" (JStr "No description provided.")) = Some e ->
  is_Exception e = true ->
  exists st',
    rtfs (JObj members) st = (Ok tt, st') /\
    st_registry st' = st_registry st /\
    st_namespace st' = ns' /\
    tool_calls (events_since st st') = [] /\
    loop (JObj members :: rest) st = loop rest st'.
Proof.
  intros Hn Hs He Hl Hc Hexn.
  enough (exists st', rtfs (JObj members) st = (Ok tt, st') /\
                      st_registry st' = st_registry st /\
                      st_namespace st' = ns' /\
                      tool_calls (events_since st st') = [])
    as (st' & E & Hr & Hns & Ht).
  { exists st'. repeat split; auto using loop_step. }
  destruct st as [ns reg out evs]; cbn in *.
  unfold_rtfs. rewrite Hn, Hs.
  destruct (debug_on DEBUG); cbn; rewrite He; cbn; rewrite Hl; cbn; rewrite Hc; cbn;
    rewrite Hexn; cbn;
    (eexists; split; [reflexivity|]);
    cbn; rewrite ?drop_app_length; auto.
Qed.

(** What one call hands to the tool table, and how it can raise. *)
Lemma rtfs_shape (d : json) (st : state) :
  exists new,
    st_events (snd (rtfs d st)) = st_events st ++ new /\
    (forall t, t ∈ tool_calls new -> describes d t) /\
    (forall e, fst (rtfs d st) = Raise e ->
               (e = AttributeError /\ script_of d = None) \/
               (e = TypeError /\
                exists members, d = JObj members /\
                  unhashable (field members "name" (JStr "UnnamedTool")) = true) \/
               is_Exception e = false).
Proof.
  destruct (script_of d) as [s0|] eqn:Hsc.
  2: { rewrite (rtfs_malformed d st Hsc). exists []. cbn. rewrite app_nil_r.
       split; [reflexivity|]. split.
       - intros t Ht. apply elem_of_nil in Ht. contradiction.
       - intros e [= <-]. left. auto. }
  destruct st as [ns reg out evs].
  unfold script_of in Hsc.
  destruct d as [| | | |items|members]; try discriminate Hsc.
  unfold_rtfs.
  destruct (field members "script_content" (JStr "")) as [| | |src| |];
    try discriminate Hsc.
  injection Hsc as <-. generalize (strip_fences src); intros s.
  destruct (debug_on DEBUG); cbn;
    repeat (case_match; cbn; subst; try discriminate);
    simplify_eq;
    (eexists; split; [cbn; rewrite <- ?app_assoc; reflexivity|]);
    (split;
     [ cbn; let x := fresh "tool" in let Hx := fresh "Htool" in
       intros x Hx;
       first
         [ apply elem_of_nil in Hx; contradiction
         | apply list_elem_of_singleton in Hx; subst x;
           unfold describes; cbn; do 3 eexists; repeat split; eauto ]
     | cbn; let x := fresh "exn" in let Hx := fresh "Hexn" in
       intros x Hx;
       first
         [ discriminate Hx
         | injection Hx as <-;
           first
             [ right; right; assumption
             | right; left; split; [reflexivity|];
               eexists; split; [reflexivity|];
               match goal with
               | Hname : field _ "name" _ = _ |- _ => rewrite Hname; reflexivity
               end ] ] ]).
Qed.

(** X6: [register_tool_from_script] lets an exception out in three cases
    only: [AttributeError] for an item that is not an object or whose
    source is not a string, [TypeError] for a declared name that is a
    list or an object, and an exception outside class [Exception]. *)
Theorem raising_item (d : json) (st : state) (e : pyexn) :
  fst (rtfs d st) = Raise e ->
  (e = AttributeError /\ script_of d = None) \/
  (e = TypeError /\
   exists members, d = JObj members /\
     unhashable (field members "name" (JStr "UnnamedTool")) = true) \/
  is_Exception e = false.
Proof.
  destruct (rtfs_shape d st) as (new & _ & _ & H). apply H.
Qed.

Lemma loop_tools (items : list json) (st : state) (t : RegisteredTool) :
  t ∈ tool_calls (events_since st (snd (loop items st))) ->
  exists d, d ∈ items /\ describes d t.
Proof.
  revert st. induction items as [|d rest IH]; intros st.
  - cbn. unfold events_since. rewrite drop_all. cbn. intros H.
    apply elem_of_nil in H. contradiction.
  - rewrite loop_cons.
    destruct (rtfs_shape d st) as (new1 & Hev1 & Hsh & _).
    destruct (rtfs d st) as [[[]|e] st1]; cbn in Hev1.
    + destruct (loop_effect py_exec tool_check DEBUG rest st1) as (new2 & k & Hev2 & _).
      pose proof (IH st1) as IH1.
      rewrite (events_since_eq _ _ _ Hev2) in IH1.
      rewrite Hev1, <- app_assoc in Hev2.
      rewrite (events_since_eq _ _ _ Hev2), tool_calls_app.
      intros [H|H]%elem_of_app.
      * exists d. split; [left | auto].
      * destruct (IH1 H) as (d' & Hin & Hd). exists d'. split; [right; exact Hin | exact Hd].
    + cbn. rewrite (events_since_eq _ _ _ Hev1). intros H.
      exists d. split; [left | auto].
Qed.

(** X3: Every tool a pass over a batch registers is declared by an item of
    the batch: it carries that item's name and description, and its
    callable is a function whose parameters are the recorded signature. *)
Theorem registered_tools_are_declared (items : list json) (st : state)
        (t : RegisteredTool) :
  t ∈ tools_registered_by (loop items) st ->
  exists d, d ∈ items /\ describes d t.
Proof. apply loop_tools. Qed.

Lemma loop_untouched (items : list json) (st : state) (k : string) :
  (forall d, d ∈ items -> declared_name d <> Some k) ->
  st_registry (snd (loop items st)) !! k = st_registry st !! k.
Proof.
  intros Hk.
  destruct (loop_effect py_exec tool_check DEBUG items st) as (new & n & Hev & Hreg & _).
  rewrite Hreg. apply foldl_upsert_other.
  apply Forall_forall. intros t Ht Hname.
  pose proof (loop_tools items st t) as H.
  rewrite (events_since_eq _ _ _ Hev) in H.
  destruct (H Ht) as (d & Hin & (members & fname & body & -> & Hn & _)).
  apply (Hk _ Hin). unfold declared_name. rewrite Hn, Hname. reflexivity.
Qed.

(** X4: A pass over a batch leaves alone every table entry whose name no
    item of the batch declares: same entry after as before, or none. *)
Theorem undeclared_names_are_untouched (items : list json) (st : state) (k : string) :
  (forall d, d ∈ items -> declared_name d <> Some k) ->
  st_registry (snd (loop items st)) !! k = st_registry st !! k.
Proof. apply loop_untouched. Qed.

(** X2: The entry a valid descriptor gets is the one the table holds at the
    end of the pass, whatever the later items do (fail, raise, end the
    pass), as long as none of them declares the same name. *)
Theorem registered_entry_survives (members : list (string * json))
        (n src fname body : string) (ps : list param) (ns' : namespace)
        (st : state) (rest : list json) :
  field members "name" (JStr "UnnamedTool") = JStr n ->
  field members "script_content" (JStr "") = JStr src ->
  py_exec (strip_fences src) (st_namespace st) = Returns ns' ->
  ns' !! n = Some (VFunc fname ps body) ->
  tool_check (VFunc fname ps body) n
             (field members "description" (JStr "No description provided.")) = None ->
  (forall d, d ∈ rest -> declared_name d <> Some n) ->
  st_registry (snd (loop (JObj members :: rest) st)) !! n =
  Some (mkTool n (field members "description" (JStr "No description provided."))
               (VFunc fname ps body) ps).
Proof.
  intros Hn Hs He Hl Hc Hrest.
  destruct (rtfs_valid members n src fname body ps ns' st Hn Hs He Hl Hc)
    as (st' & E & Hr & _).
  rewrite (loop_step _ _ _ _ _ _ _ E), (loop_untouched rest st' n Hrest), Hr.
  apply lookup_insert_eq.
Qed.

(** X7: One malformed item ends the pass: the items before it are
    processed, the malformed one and all those after it are not, and
    [register_tools] still returns normally (the [AttributeError] is
    absorbed at line 100). *)
Theorem malformed_item_drops_the_rest (path : string) (pre post : list json)
        (bad : json) (st st1 : state) :
  read_json path = inr (JArr (pre ++ bad :: post)) ->
  loop pre st = (Ok tt, st1) ->
  script_of bad = None ->
  fst (reg_tools path st) = Ok tt /\
  core (snd (reg_tools path st)) = core st1.
Proof.
  intros Hp Hpre Hbad.
  pose proof (register_tools_core py_exec tool_check DEBUG read_json path st) as H.
  unfold loaded_items in H. rewrite Hp in H.
  rewrite loop_app, Hpre, loop_cons, (rtfs_malformed bad st1 Hbad) in H.
  cbn in H. destruct H as [-> ->]. auto.
Qed.

(** X8: A declared name that is a list or an object also ends the pass,
    but only after the source of that item has been executed: the
    lookup of line 55 raises [TypeError] outside both [try] blocks. *)
Theorem unhashable_name_drops_the_rest (path : string) (pre post : list json)
        (members : list (string * json)) (src : string) (ns' : namespace)
        (st st1 : state) :
  read_json path = inr (JArr (pre ++ JObj members :: post)) ->
  loop pre st = (Ok tt, st1) ->
  field members "script_content" (JStr "") = JStr src ->
  unhashable (field members "name" (JStr "UnnamedTool")) = true ->
  py_exec (strip_fences src) (st_namespace st1) = Returns ns' ->
  fst (reg_tools path st) = Ok tt /\
  core (snd (reg_tools path st)) =
  (ns', st_registry st1,
   st_events st1 ++ [EvExec (strip_fences src) (st_namespace st1) (Returns ns')]).
Proof.
  intros Hp Hpre Hs Hu He.
  assert (Hd : exists s2, rtfs (JObj members) st1 = (Raise TypeError, s2) /\
                 core s2 = (ns', st_registry st1,
                            st_events st1 ++
                              [EvExec (strip_fences src) (st_namespace st1) (Returns ns')])).
  { destruct st1 as [ns reg out evs]; cbn in *.
    unfold_rtfs. rewrite Hs.
    destruct (field members "name" (JStr "UnnamedTool")); try discriminate Hu;
      destruct (debug_on DEBUG); cbn; rewrite He; cbn;
      (eexists; split; [reflexivity|]); reflexivity. }
  destruct Hd as (s2 & Hd & Hc2).
  pose proof (register_tools_core py_exec tool_check DEBUG read_json path st) as H.
  unfold loaded_items in H. rewrite Hp in H.
  rewrite loop_app, Hpre, loop_cons, Hd in H. cbn in H.
  destruct H as [-> ->]. auto.
Qed.

(** X9: A source that raises outside class [Exception] ends the process:
    the exception leaves [register_tools], [mcp.run()] is never
    reached, and the items after it are never executed. *)
Theorem base_exception_stops_the_server (path : string) (pre post : list json)
        (members : list (string * json)) (src : string) (e : pyexn)
        (ns' : namespace) (st st1 : state) :
  read_json path = inr (JArr (pre ++ JObj members :: post)) ->
  loop pre st = (Ok tt, st1) ->
  field members "script_content" (JStr "") = JStr src ->
  py_exec (strip_fences src) (st_namespace st1) = Raises e ns' ->
  is_Exception e = false ->
  exists st',
    serve path st = Died e st' /\
    core st' = (ns', st_registry st1,
                st_events st1 ++ [EvExec (strip_fences src) (st_namespace st1) (Raises e ns')]).
Proof.
  intros Hp Hpre Hs He Hexn.
  assert (Hd : exists s2, rtfs (JObj members) st1 = (Raise e, s2) /\
                 core s2 = (ns', st_registry st1,
                            st_events st1 ++
                              [EvExec (strip_fences src) (st_namespace st1) (Raises e ns')])).
  { destruct st1 as [ns reg out evs]; cbn in *.
    unfold_rtfs. rewrite Hs.
    destruct (debug_on DEBUG); cbn; rewrite He; cbn; rewrite Hexn; cbn;
      (eexists; split; [reflexivity|]); reflexivity. }
  destruct Hd as (s2 & Hd & Hc2).
  pose proof (register_tools_core py_exec tool_check DEBUG read_json path st) as H.
  unfold loaded_items in H. rewrite Hp in H.
  rewrite loop_app, Hpre, loop_cons, Hd in H. cbn in H. rewrite Hexn in H.
  unfold main. destruct (reg_tools path st) as [r s']. cbn in H.
  destruct H as [Hc ->]. exists s'. split; [reflexivity|]. rewrite Hc. exact Hc2.
Qed.

(** X11: With the debug flag on, whenever [register_tools] returns its last
    two lines are "All tools registered successfully." and the line
    naming exactly the tools in the tool table at that point (which
    names, not in which order): also when the registry file could not
    be loaded or the loop was cut short by an absorbed exception. *)
Theorem summary_lines (path : string) (st : state) :
  debug_on DEBUG = true ->
  fst (reg_tools path st) = Ok tt ->
  exists lines,
    st_output (snd (reg_tools path st)) =
    lines ++ [(Stderr, DAllRegistered);
              (Stderr, DRegisteredTools (dom (st_registry (snd (reg_tools path st)))))].
Proof.
  intros Hd.
  unfold register_tools, json_load, py_iter, get_tools.
  unfold debug, print, try_except, bind, ret, raise. rewrite Hd.
  destruct (read_json path) as [e|v].
  - destruct st as [ns reg out evs].
    destruct e; cbn; intros Hok; try discriminate Hok;
      (eexists; rewrite <- app_assoc; reflexivity).
  - destruct v as [| | |s|items|members];
      try (destruct st as [ns reg out evs]; cbn; intros Hok;
           eexists; rewrite <- app_assoc; reflexivity).
    + destruct (loop _ st) as [[[]|e] [ns1 reg1 out1 evs1]];
        [|destruct e]; cbn; intros Hok; try discriminate Hok;
        (eexists; rewrite <- app_assoc; reflexivity).
    + destruct (loop items st) as [[[]|e] [ns1 reg1 out1 evs1]];
        [|destruct e]; cbn; intros Hok; try discriminate Hok;
        (eexists; rewrite <- app_assoc; reflexivity).
    + destruct (loop _ st) as [[[]|e] [ns1 reg1 out1 evs1]];
        [|destruct e]; cbn; intros Hok; try discriminate Hok;
        (eexists; rewrite <- app_assoc; reflexivity).
Qed.

End Coverage.

(** ** The further properties at work on the example registries *)

Section MoreExamples.

Import PyLite Demo Cases.
Local Open Scope list_scope.

Lemma strip_fences_backtick_free_witness :
  strip_fences ("```python" ++ "def add(a, b): return a+b" ++ "```")%string
  = "def add(a, b): return a+b" /\
  strip_fences ("```python" ++ "def add(a, b): return a+b")%string
  = "def add(a, b): return a+b" /\
  strip_fences ("def add(a, b): return a+b" ++ "```")%string
  = "def add(a, b): return a+b" /\
  strip_fences "def add(a, b): return a+b" = "def add(a, b): return a+b".
Proof.
  apply (strip_fences_backtick_free "def add(a, b): return a+b"). reflexivity.
Defined.

Lemma debug_flag_is_not_observed_witness :
  fst (register_tools PyLite.exec accept_all (one_file registry_path forward_reference)
         None registry_path initial_state)
  = fst (register_tools PyLite.exec accept_all (one_file registry_path forward_reference)
           (Some "1") registry_path already_printed) /\
  core (snd (register_tools PyLite.exec accept_all (one_file registry_path forward_reference)
               None registry_path initial_state))
  = core (snd (register_tools PyLite.exec accept_all (one_file registry_path forward_reference)
                 (Some "1") registry_path already_printed)).
Proof.
  apply (debug_flag_is_not_observed PyLite.exec accept_all
           (one_file registry_path forward_reference) None (Some "1")
           registry_path initial_state already_printed).
  reflexivity.
Defined.

Lemma split_registry_file_witness :
  fst (register_tools PyLite.exec accept_all three_files None "all.json" initial_state)
  = fst (register_tools PyLite.exec accept_all three_files None "b.json"
           (snd (register_tools PyLite.exec accept_all three_files None "a.json"
                   initial_state))) /\
  core (snd (register_tools PyLite.exec accept_all three_files None "all.json" initial_state))
  = core (snd (register_tools PyLite.exec accept_all three_files None "b.json"
                 (snd (register_tools PyLite.exec accept_all three_files None "a.json"
                         initial_state)))).
Proof.
  apply (split_registry_file PyLite.exec accept_all three_files None
           "all.json" "a.json" "b.json" [add_tool] forward_items initial_state).
  - reflexivity.
  - reflexivity.
  - reflexivity.
  - vm_compute. reflexivity.
Defined.

Lemma valid_descriptor_is_registered_witness :
  exists st',
    register_tool_from_script PyLite.exec accept_all None (JObj add_members) initial_state
    = (Ok tt, st') /\
    st_registry st' = <["add" := add_entry]> (st_registry initial_state) /\
    st_registry st' !! "add" = Some add_entry /\
    st_namespace st' = outcome_ns (PyLite.exec "def add(a, b): return a+b" ∅) /\
    tool_calls (events_since initial_state st') = [add_entry] /\
    for_each PyLite.exec accept_all None (JObj add_members :: forward_items) initial_state
    = for_each PyLite.exec accept_all None forward_items st'.
Proof.
  apply (valid_descriptor_is_registered PyLite.exec accept_all None add_members
           "add" "def add(a, b): return a+b" "add" "return a+b"
           [("a", true); ("b", true)]
           (outcome_ns (PyLite.exec "def add(a, b): return a+b" ∅))
           initial_state forward_items).
  - reflexivity.
  - reflexivity.
  - vm_compute. reflexivity.
  - vm_compute. reflexivity.
  - reflexivity.
Defined.

Lemma rejected_tool_is_skipped_witness :
  exists st',
    register_tool_from_script PyLite.exec reject_all None (JObj add_members) initial_state
    = (Ok tt, st') /\
    st_registry st' = st_registry initial_state /\
    st_namespace st' = outcome_ns (PyLite.exec "def add(a, b): return a+b" ∅) /\
    tool_calls (events_since initial_state st') = [] /\
    for_each PyLite.exec reject_all None (JObj add_members :: forward_items) initial_state
    = for_each PyLite.exec reject_all None forward_items st'.
Proof.
  apply (rejected_tool_is_skipped PyLite.exec reject_all None add_members
           "add" "def add(a, b): return a+b" "add" "return a+b"
           [("a", true); ("b", true)]
           (outcome_ns (PyLite.exec "def add(a, b): return a+b" ∅))
           ValueError initial_state forward_items).
  - reflexivity.
  - reflexivity.
  - vm_compute. reflexivity.
  - vm_compute. reflexivity.
  - reflexivity.
  - reflexivity.
Defined.

Lemma raising_item_witness :
  (AttributeError = AttributeError /\ script_of (JNum 5) = None) \/
  (AttributeError = TypeError /\
   exists members, JNum 5 = JObj members /\
     unhashable (field members "name" (JStr "UnnamedTool")) = true) \/
  is_Exception AttributeError = false.
Proof.
  apply (raising_item PyLite.exec accept_all None (JNum 5) initial_state AttributeError).
  reflexivity.
Defined.

Lemma registered_tools_are_declared_witness :
  exists d, d ∈ [add_tool] /\ describes d add_entry.
Proof.
  apply (registered_tools_are_declared PyLite.exec accept_all None
           [add_tool] initial_state add_entry).
  assert (E : tools_registered_by (for_each PyLite.exec accept_all None [add_tool])
                initial_state = [add_entry]) by (vm_compute; reflexivity).
  rewrite E. left.
Defined.

Lemma undeclared_names_are_untouched_witness :
  st_registry (snd (for_each PyLite.exec accept_all None [add_tool] initial_state))
    !! "helper"
  = st_registry initial_state !! "helper".
Proof.
  apply (undeclared_names_are_untouched PyLite.exec accept_all None
           [add_tool] initial_state "helper").
  intros d Hd. apply list_elem_of_singleton in Hd. subst d. discriminate.
Defined.

Lemma malformed_item_drops_the_rest_witness :
  fst (register_tools PyLite.exec accept_all (one_file registry_path (JArr number_inside))
         None registry_path initial_state) = Ok tt /\
  core (snd (register_tools PyLite.exec accept_all
               (one_file registry_path (JArr number_inside))
               None registry_path initial_state))
  = core (snd (for_each PyLite.exec accept_all None [add_tool] initial_state)).
Proof.
  apply (malformed_item_drops_the_rest PyLite.exec accept_all None
           (one_file registry_path (JArr number_inside)) registry_path
           [add_tool] forward_items (JNum 5) initial_state
           (snd (for_each PyLite.exec accept_all None [add_tool] initial_state))).
  - reflexivity.
  - vm_compute. reflexivity.
  - reflexivity.
Defined.

Lemma base_exception_stops_the_server_witness :
  exists st',
    main PyLite.exec accept_all (one_file registry_path (JArr exit_inside)) None
         registry_path initial_state = Died SystemExit st' /\
    core st' =
    (outcome_ns (PyLite.exec "raise SystemExit" (st_namespace after_add)),
     st_registry after_add,
     st_events after_add ++
       [EvExec (strip_fences "raise SystemExit") (st_namespace after_add)
          (Raises SystemExit
             (outcome_ns (PyLite.exec "raise SystemExit" (st_namespace after_add))))]).
Proof.
  apply (base_exception_stops_the_server PyLite.exec accept_all None
           (one_file registry_path (JArr exit_inside)) registry_path
           [add_tool] forward_items boom_members "raise SystemExit" SystemExit
           (outcome_ns (PyLite.exec "raise SystemExit" (st_namespace after_add)))
           initial_state after_add).
  - reflexivity.
  - vm_compute. reflexivity.
  - reflexivity.
  - vm_compute. reflexivity.
  - reflexivity.
Defined.

Lemma summary_lines_witness :
  exists lines,
    st_output (snd (run (Some "1") forward_reference initial_state)) =
    lines ++ [(Stderr, DAllRegistered);
              (Stderr, DRegisteredTools
                         (dom (st_registry (snd (run (Some "1") forward_reference
                                                    initial_state)))))].
Proof.
  apply (summary_lines PyLite.exec accept_all (Some "1")
           (one_file registry_path forward_reference) registry_path initial_state).
  - reflexivity.
  - vm_compute. reflexivity.
Defined.

Lemma registered_entry_survives_witness :
  st_registry (snd (for_each PyLite.exec accept_all None
                      (JObj add_members :: forward_items) initial_state)) !! "add"
  = Some (mkTool "add" (field add_members "description" (JStr "No description provided."))
                 (VFunc "add" [("a", true); ("b", true)] "return a+b")
                 [("a", true); ("b", true)]).
Proof.
  apply (registered_entry_survives PyLite.exec accept_all None add_members
           "add" "def add(a, b): return a+b" "add" "return a+b"
           [("a", true); ("b", true)]
           (outcome_ns (PyLite.exec "def add(a, b): return a+b" ∅))
           initial_state forward_items).
  - reflexivity.
  - reflexivity.
  - vm_compute. reflexivity.
  - vm_compute. reflexivity.
  - reflexivity.
  - intros d Hd. unfold forward_items in Hd.
    apply elem_of_cons in Hd as [->|Hd]; [discriminate|].
    apply list_elem_of_singleton in Hd. subst d. discriminate.
Defined.

Lemma unhashable_name_drops_the_rest_witness :
  fst (register_tools PyLite.exec accept_all (one_file registry_path (JArr list_name_inside))
         None registry_path initial_state) = Ok tt /\
  core (snd (register_tools PyLite.exec accept_all
               (one_file registry_path (JArr list_name_inside))
               None registry_path initial_state)) =
  (outcome_ns (PyLite.exec "z = 1" (st_namespace after_add)),
   st_registry after_add,
   st_events after_add ++
     [EvExec (strip_fences "z = 1") (st_namespace after_add)
        (Returns (outcome_ns (PyLite.exec "z = 1" (st_namespace after_add))))]).
Proof.
  apply (unhashable_name_drops_the_rest PyLite.exec accept_all None
           (one_file registry_path (JArr list_name_inside)) registry_path
           [add_tool] forward_items list_name_members "z = 1"
           (outcome_ns (PyLite.exec "z = 1" (st_namespace after_add)))
           initial_state after_add).
  - reflexivity.
  - vm_compute. reflexivity.
  - reflexivity.
  - reflexivity.
  - vm_compute. reflexivity.
Defined.

End MoreExamples.
